(** * Business Central client: token manager, endpoint builder, request
    executor and domain operations.

    Shallow embedding of [src/config.py], [src/azure_auth.py] and
    [src/client.py].  Python values returned by the HTTP layer are an
    inductive type, Python exceptions are the [Raise] branch of a result
    type, and the module-level singletons ([config], [token_manager]) together
    with the outside world (clock, network, logger) are threaded through a
    state-and-exception monad.  Every effect the code performs on the outside
    world is appended to a trace, so that statements about the HTTP calls,
    the sleeps and the log records of an execution can be made. *)

From Stdlib Require Import ZArith Lia Bool Ascii String List.
From stdpp Require Import base strings list gmap.

Local Open Scope Z_scope.

(** ** Python values and exceptions *)

Module Py.

(** The exceptions that the modelled code can raise.  [NetworkError] stands
    for the [httpx] transport exceptions (timeouts, connection errors).
    [Unmodelled] marks an input on which the embedding does not follow the
    code (see [Auth._fetch]). *)
Inductive exn : Type :=
  | AttributeError
  | TypeError
  | KeyError
  | IndexError
  | ValueError
  | OverflowError
  | NetworkError
  | Unmodelled.

Inductive result (A : Type) : Type :=
  | Ok (a : A)
  | Raise (e : exn).
Arguments Ok {A} a.
Arguments Raise {A} e.

(** JSON-shaped Python values.  Numbers are integers; a [dict] keeps its
    insertion order. *)
#[warnings="-register-all"]
Inductive val : Type :=
  | VNone
  | VBool (b : bool)
  | VInt (n : Z)
  | VStr (s : string)
  | VList (l : list val)
  | VDict (d : list (string * val)).

(** [bool(v)] *)
Definition truthy (v : val) : bool :=
  match v with
  | VNone => false
  | VBool b => b
  | VInt n => negb (n =? 0)
  | VStr s => negb (String.eqb s "")
  | VList l => match l with [] => false | _ => true end
  | VDict d => match d with [] => false | _ => true end
  end.

(** Truthiness of an [Optional[str]]. *)
Definition truthy_str (o : option string) : bool :=
  match o with
  | None => false
  | Some s => negb (String.eqb s "")
  end.

(** [f"{o}"] for an [Optional[str]]. *)
Definition fstr (o : option string) : string :=
  match o with
  | None => "None"
  | Some s => s
  end.

(** Lookup in an insertion-ordered dict. *)
Fixpoint dict_get {A : Type} (k : string) (d : list (string * A)) : option A :=
  match d with
  | [] => None
  | (k', v) :: d' => if String.eqb k k' then Some v else dict_get k d'
  end.

(** [d[k] = v]: replaces in place, or appends a new key at the end. *)
Fixpoint dict_set {A : Type} (k : string) (v : A) (d : list (string * A))
  : list (string * A) :=
  match d with
  | [] => [(k, v)]
  | (k', v') :: d' =>
      if String.eqb k k' then (k, v) :: d' else (k', v') :: dict_set k v d'
  end.

(** [sub in s] on strings. *)
Fixpoint str_contains (sub s : string) : bool :=
  String.prefix sub s ||
  match s with
  | EmptyString => false
  | String _ s' => str_contains sub s'
  end.

(** [s[:n]] *)
Definition str_take (n : nat) (s : string) : string := String.substring 0 n s.

(** [s.split(sep)] for a non-empty separator: the text is scanned from the
    left, [cur] collects the characters of the current part, and [skip]
    counts the characters of a separator just matched that are still to be
    passed over. *)
Fixpoint split_aux (sep : string) (skip : nat) (cur : string) (s : string)
  : list string :=
  match s with
  | EmptyString => [cur]
  | String c s' =>
      match skip with
      | S k => split_aux sep k cur s'
      | O =>
          if String.prefix sep s
          then cur :: split_aux sep (Nat.pred (String.length sep)) "" s'
          else split_aux sep O (cur +:+ String c "") s'
      end
  end.

Definition split (sep s : string) : list string := split_aux sep O "" s.

(** [l[0]] *)
Definition index0 {A : Type} (l : list A) : result A :=
  match l with
  | [] => Raise IndexError
  | x :: _ => Ok x
  end.

(** [sep.join(l)] *)
Fixpoint join (sep : string) (l : list string) : string :=
  match l with
  | [] => ""
  | [x] => x
  | x :: l' => x +:+ sep +:+ join sep l'
  end.

End Py.
Export Py.

(** ** Endpoint builder *)

Module APIEndpointBuilder.

(** [base_url] and [company_id] are declared [str] but are filled from
    [config.bc], whose fields are [Optional[str]]. *)
Record t : Type := mk {
  base_url : option string;
  company_id : option string
}.

Definition build_standard_url (self : t) (endpoint : string) : string :=
  fstr (base_url self) +:+ "/companies(" +:+ fstr (company_id self) +:+ ")/"
    +:+ endpoint.

(** [self.base_url.split(...)] is an attribute access on [None] when no base
    URL is configured. *)
Definition build_custom_url (self : t) (publisher app_group version endpoint : string)
    (use_company : bool) : result string :=
  match base_url self with
  | None => Raise AttributeError
  | Some base =>
      let base_parts := split "/api/v2.0" base in
      match index0 base_parts with
      | Raise e => Raise e
      | Ok base_without_version =>
          let custom_path :=
            base_without_version +:+ "/api/" +:+ publisher +:+ "/" +:+ app_group
              +:+ "/" +:+ version in
          if use_company
          then Ok (custom_path +:+ "/companies(" +:+ fstr (company_id self) +:+ ")/"
                     +:+ endpoint)
          else Ok (custom_path +:+ "/" +:+ endpoint)
      end
  end.

End APIEndpointBuilder.

(** ** Configuration ([config.py]) *)

Module Config.

Record AzureADConfig : Type := mkAzureAD {
  tenant_id : option string;
  client_id : option string;
  client_secret : option string;
  authority : option string
}.

(** The [model_validator] that runs after construction. *)
Definition set_authority (self : AzureADConfig) : AzureADConfig :=
  if negb (truthy_str (authority self)) && truthy_str (tenant_id self)
  then mkAzureAD (tenant_id self) (client_id self) (client_secret self)
         (Some ("https://login.microsoftonline.com/" +:+ fstr (tenant_id self)))
  else self.

Record BusinessCentralConfig : Type := mkBC {
  environment : string;
  company_id : option string;
  bc_tenant_id : option string;
  base_url : option string
}.

Definition set_base_url (self : BusinessCentralConfig) : BusinessCentralConfig :=
  if negb (truthy_str (base_url self)) && truthy_str (bc_tenant_id self)
  then mkBC (environment self) (company_id self) (bc_tenant_id self)
         (Some ("https://api.businesscentral.dynamics.com/v2.0/"
                  +:+ fstr (bc_tenant_id self) +:+ "/" +:+ environment self
                  +:+ "/api/v2.0"))
  else self.

Record AppConfig : Type := mkApp {
  azure_ad : AzureADConfig;
  bc : BusinessCentralConfig
}.

(** The process environment, read with [os.getenv].  The warnings that the
    loader logs are not part of the model. *)
Definition _load_azure (env : gmap string string) : AzureADConfig :=
  let t := env !! "AZURE_TENANT_ID" in
  let c := env !! "AZURE_CLIENT_ID" in
  let s := env !! "AZURE_CLIENT_SECRET" in
  set_authority (mkAzureAD t c s None).

Definition _load_bc (env : gmap string string) (azure : AzureADConfig)
  : BusinessCentralConfig :=
  let env_name := default "production" (env !! "BC_ENVIRONMENT") in
  let cid := env !! "BC_COMPANY_ID" in
  let base_url := None in
  let tenant := if truthy_str (tenant_id azure) then tenant_id azure else None in
  set_base_url (mkBC env_name cid tenant base_url).

Definition load (env : gmap string string) : AppConfig :=
  let azure := _load_azure env in
  mkApp azure (_load_bc env azure).

End Config.

(** ** The outside world *)

Module World.

(** What an HTTP response exposes to the code: [status_code], [text], and
    the result of [json()] ([None] when the body does not parse, in which
    case [json()] raises [ValueError]).  [elapsed] is the time the call
    took, in microseconds. *)
Record response : Type := mkResponse {
  status_code : Z;
  text : string;
  json : option val;
  elapsed : Z
}.

(** What the network does at one call: it answers, or the transport raises
    after some time. *)
Inductive net : Type :=
  | Answers (r : response)
  | Fails (after : Z).

Record request : Type := mkRequest {
  rq_method : string;
  rq_url : string;
  rq_headers : list (string * string);
  rq_params : option (list (string * val));
  rq_form : option (list (string * option string));
  rq_json : option val;
  rq_timeout : Z
}.

(** Log records keep the interpolated values, not the rendered text. *)
Inductive log_record : Type :=
  | BCRequest (n : nat) (method url : string)
      (params : option (list (string * val))) (data : option val)
  | BCResponse (status : Z) (excerpt : string)
  | CredentialsNotConfigured
  | TokenExpired
  | ServerError (status : Z)
  | BCApiError (method path : string) (status : Z) (excerpt : string)
  | BCApiNoResponse (method path : string)
  | CustomersRetrieved (n : Z)
  | CustomersFailed.

Inductive level : Type := DEBUG | INFO | WARNING | ERROR.

Inductive event : Type :=
  | EvLog (l : level) (r : log_record)
  | EvPrint (status : Z)
  | EvTokenPost (rq : request) (res : option response)
  | EvApi (rq : request) (res : option response)
  | EvSleep (seconds : Z)
  | EvInvalidate.

(** The [token_manager] singleton. *)
Record AzureTokenManager : Type := mkTM {
  _token : option string;
  _expires : option Z;
  _scope : string
}.

(** [clock] is [datetime.utcnow()] in microseconds since the epoch;
    [token_endpoint] and [api] are what the network will do at the next calls
    to the token endpoint and to Business Central (a call after the end of the
    list finds the peer unreachable); [trace] is appended to in order. *)
Record world : Type := mkWorld {
  config : Config.AppConfig;
  token_manager : AzureTokenManager;
  clock : Z;
  token_endpoint : list net;
  api : list net;
  trace : list event
}.

Definition M (A : Type) : Type := world -> result A * world.

Definition ret {A : Type} (a : A) : M A := fun w => (Ok a, w).

Definition raise {A : Type} (e : exn) : M A := fun w => (Raise e, w).

Definition bind {A B : Type} (m : M A) (k : A -> M B) : M B :=
  fun w =>
    match m w with
    | (Ok a, w') => k a w'
    | (Raise e, w') => (Raise e, w')
    end.

(** Lifts a pure computation that may raise. *)
Definition lift {A : Type} (r : result A) : M A := fun w => (r, w).

Definition emit (e : event) : M unit :=
  fun w => (Ok tt, mkWorld (config w) (token_manager w) (clock w)
                     (token_endpoint w) (api w) (trace w ++ [e])).

Definition advance (d : Z) : M unit :=
  fun w => (Ok tt, mkWorld (config w) (token_manager w) (clock w + d)
                     (token_endpoint w) (api w) (trace w)).

Definition get_config : M Config.AppConfig := fun w => (Ok (config w), w).

Definition utcnow : M Z := fun w => (Ok (clock w), w).

Definition get_tm : M AzureTokenManager := fun w => (Ok (token_manager w), w).

Definition put_tm (tm : AzureTokenManager) : M unit :=
  fun w => (Ok tt, mkWorld (config w) tm (clock w) (token_endpoint w) (api w)
                     (trace w)).

Definition log (l : level) (r : log_record) : M unit := emit (EvLog l r).

(** [asyncio.sleep(n)] *)
Definition sleep (n : Z) : M unit :=
  bind (emit (EvSleep n)) (fun _ => advance (n * 1000000)).

(** [httpx] call to the token endpoint. *)
Definition post_token (rq : request) : M response :=
  fun w =>
    match token_endpoint w with
    | [] => (Raise NetworkError,
             mkWorld (config w) (token_manager w) (clock w) [] (api w)
               (trace w ++ [EvTokenPost rq None]))
    | Fails d :: rest =>
        (Raise NetworkError,
         mkWorld (config w) (token_manager w) (clock w + d) rest (api w)
           (trace w ++ [EvTokenPost rq None]))
    | Answers r :: rest =>
        (Ok r,
         mkWorld (config w) (token_manager w) (clock w + elapsed r) rest (api w)
           (trace w ++ [EvTokenPost rq (Some r)]))
    end.

(** [httpx] call to Business Central. *)
Definition call_api (rq : request) : M response :=
  fun w =>
    match api w with
    | [] => (Raise NetworkError,
             mkWorld (config w) (token_manager w) (clock w) (token_endpoint w) []
               (trace w ++ [EvApi rq None]))
    | Fails d :: rest =>
        (Raise NetworkError,
         mkWorld (config w) (token_manager w) (clock w + d) (token_endpoint w) rest
           (trace w ++ [EvApi rq None]))
    | Answers r :: rest =>
        (Ok r,
         mkWorld (config w) (token_manager w) (clock w + elapsed r)
           (token_endpoint w) rest (trace w ++ [EvApi rq (Some r)]))
    end.

End World.
Export World.

#[export] Instance M_ret : MRet M := @ret.
#[export] Instance M_bind : MBind M := fun A B k m => bind m k.

(** ** Operations on Python values used by the client *)

Module PyOps.

(** [v[k]] for a string key. *)
Definition getitem (k : string) (v : val) : result val :=
  match v with
  | VDict d =>
      match dict_get k d with
      | Some x => Ok x
      | None => Raise KeyError
      end
  | _ => Raise TypeError
  end.

(** [v.get(k, dflt)]: only a dict has the method. *)
Definition get_default (k : string) (dflt : val) (v : val) : result val :=
  match v with
  | VDict d => Ok (default dflt (dict_get k d))
  | _ => Raise AttributeError
  end.

(** [k in v] for a string key. *)
Definition contains (k : string) (v : val) : result bool :=
  match v with
  | VDict d => Ok (bool_decide (is_Some (dict_get k d)))
  | VList l =>
      Ok (existsb (fun x => match x with VStr s => String.eqb s k | _ => false end) l)
  | VStr s => Ok (str_contains k s)
  | _ => Raise TypeError
  end.

(** [v[0]] *)
Definition getitem0 (v : val) : result val :=
  match v with
  | VList (x :: _) => Ok x
  | VList [] => Raise IndexError
  | VStr (String c _) => Ok (VStr (String c ""))
  | VStr EmptyString => Raise IndexError
  | VDict _ => Raise KeyError
  | _ => Raise TypeError
  end.

(** [len(v)] *)
Definition len (v : val) : result Z :=
  match v with
  | VList l => Ok (Z.of_nat (length l))
  | VStr s => Ok (Z.of_nat (String.length s))
  | VDict d => Ok (Z.of_nat (length d))
  | _ => Raise TypeError
  end.

(** The value of a field annotated [Optional[str]]; other values are outside
    the model. *)
Definition as_optional_str (v : val) : result (option string) :=
  match v with
  | VNone => Ok None
  | VStr s => Ok (Some s)
  | _ => Raise Unmodelled
  end.

(** [datetime.min] and [datetime.max] in microseconds since the epoch. *)
Definition datetime_min : Z := -62135596800000000.
Definition datetime_max : Z := 253402300799999999.

(** [timedelta(seconds=v)] in microseconds; the number of days of a
    [timedelta] is bounded by 999999999 in absolute value. *)
Definition timedelta_seconds (v : val) : result Z :=
  match v with
  | VInt n =>
      if (-999999999 <=? n / 86400) && (n / 86400 <=? 999999999)
      then Ok (n * 1000000)
      else Raise OverflowError
  | VBool b => Ok (if b then 1000000 else 0)
  | _ => Raise TypeError
  end.

(** [t + d] on a [datetime]. *)
Definition datetime_add (t d : Z) : result Z :=
  if (datetime_min <=? t + d) && (t + d <=? datetime_max)
  then Ok (t + d)
  else Raise OverflowError.

End PyOps.

(** ** Token manager ([azure_auth.py]) *)

Module Auth.
Import Config PyOps.

Definition init : AzureTokenManager :=
  mkTM None None "https://api.businesscentral.dynamics.com/.default".

Definition _valid : M bool :=
  tm ← get_tm;
  match _token tm, _expires tm with
  | Some _, Some e => now ← utcnow; ret (now <? e)
  | _, _ => ret false
  end.

Definition set_token (tok : option string) : M unit :=
  tm ← get_tm; put_tm (mkTM tok (_expires tm) (_scope tm)).

Definition set_expires (e : option Z) : M unit :=
  tm ← get_tm; put_tm (mkTM (_token tm) e (_scope tm)).

Definition resp_json (resp : response) : result val :=
  match json resp with
  | Some j => Ok j
  | None => Raise ValueError
  end.

Definition _fetch : M (option string) :=
  cfg ← get_config;
  tm ← get_tm;
  let url := fstr (authority (azure_ad cfg)) +:+ "/oauth2/v2.0/token" in
  let data := [("grant_type", Some "client_credentials");
               ("client_id", client_id (azure_ad cfg));
               ("client_secret", client_secret (azure_ad cfg));
               ("scope", Some (_scope tm))] in
  let headers := [("Content-Type", "application/x-www-form-urlencoded")] in
  resp ← post_token (mkRequest "POST" url headers None (Some data) None 30);
  if status_code resp =? 200 then
    j ← lift (resp_json resp);
    access_token ← lift (getitem "access_token" j);
    tok ← lift (as_optional_str access_token);
    set_token tok;;
    now ← utcnow;
    expires_in ← lift (get_default "expires_in" (VInt 3600) j);
    delta ← lift (timedelta_seconds expires_in);
    expires ← lift (datetime_add now delta);
    set_expires (Some expires);;
    tm' ← get_tm;
    ret (_token tm')
  else
    emit (EvPrint (status_code resp));;
    ret None.

Definition get_token : M (option string) :=
  cfg ← get_config;
  if negb (truthy_str (client_id (azure_ad cfg)))
     || negb (truthy_str (client_secret (azure_ad cfg)))
     || negb (truthy_str (tenant_id (azure_ad cfg)))
  then ret None
  else
    valid ← _valid;
    if valid : bool then tm ← get_tm; ret (_token tm) else _fetch.

End Auth.

(** ** Request executor and domain operations ([client.py]) *)

Module BusinessCentralClient.
Import Config PyOps.

Record t : Type := mk {
  base : option string;
  comp : option string;
  url_builder : APIEndpointBuilder.t;
  _retries : nat;
  _timeout : Z
}.

Definition init (cfg : AppConfig) : t :=
  let base := base_url (bc cfg) in
  let comp := company_id (bc cfg) in
  mk base comp (APIEndpointBuilder.mk base comp) 3 30.

(** How the retry loop is left: by a [return], or by falling out of it (after
    a [break] or when [range] is exhausted) with the last response. *)
Inductive flow : Type :=
  | Return (v : val)
  | Fallthrough (resp : option response).

Definition api_request (self : t) (method url token : string)
    (params : option (list (string * val))) (data : option val) : request :=
  mkRequest method url
    [("Authorization", "Bearer " +:+ token); ("Accept", "application/json")]
    params None data (_timeout self).

(** The body of [for i in range(self._retries)], over the indices still to
    run. *)
Fixpoint request_loop (self : t) (method url : string)
    (params : option (list (string * val))) (data : option val)
    (attempts : list nat) (resp : option response) : M flow :=
  match attempts with
  | [] => ret (Fallthrough resp)
  | i :: rest =>
      log DEBUG (BCRequest (i + 1) method url params data);;
      token ← Auth.get_token;
      if negb (truthy_str token) then
        log WARNING CredentialsNotConfigured;;
        ret (Return VNone)
      else
        resp ← call_api (api_request self method url (fstr token) params data);
        log DEBUG (BCResponse (status_code resp) (str_take 200 (text resp)));;
        if (status_code resp =? 200) || (status_code resp =? 201)
           || (status_code resp =? 204) then
          if status_code resp =? 204 then
            ret (Return (VDict [("success", VBool true)]))
          else
            match json resp with
            | Some j => ret (Return j)
            | None =>
                ret (Return (VDict [("success", VBool true);
                                    ("raw_response", VStr (text resp))]))
            end
        else if status_code resp =? 401 then
          Auth.set_token None;;
          emit EvInvalidate;;
          log WARNING TokenExpired;;
          request_loop self method url params data rest (Some resp)
        else if 500 <=? status_code resp then
          log WARNING (ServerError (status_code resp));;
          sleep (2 ^ Z.of_nat i);;
          request_loop self method url params data rest (Some resp)
        else
          ret (Fallthrough (Some resp))
  end.

Definition _request (self : t) (method path_or_url : string)
    (params : option (list (string * val))) (data : option val)
    (is_full_url : bool) : M val :=
  let url :=
    if is_full_url then path_or_url
    else APIEndpointBuilder.build_standard_url (url_builder self) path_or_url in
  out ← request_loop self method url params data (seq 0 (_retries self)) None;
  match out with
  | Return v => ret v
  | Fallthrough (Some resp) =>
      log ERROR (BCApiError method path_or_url (status_code resp)
                   (str_take 200 (text resp)));;
      ret VNone
  | Fallthrough None =>
      log ERROR (BCApiNoResponse method path_or_url);;
      ret VNone
  end.

(** [res.get("value", []) if res else []] *)
Definition value_or_empty (res : val) : result val :=
  if truthy res then get_default "value" (VList []) res else Ok (VList []).

(** [res['value'][0]] if [res and 'value' in res and res['value']], else
    [None]. *)
Definition first_value (res : val) : result val :=
  if truthy res then
    match contains "value" res with
    | Raise e => Raise e
    | Ok false => Ok VNone
    | Ok true =>
        match getitem "value" res with
        | Raise e => Raise e
        | Ok v => if truthy v then getitem0 v else Ok VNone
        end
    end
  else Ok VNone.

Definition get_customers (self : t) (top : Z) : M val :=
  res ← _request self "GET" "customers" (Some [("$top", VInt top)]) None false;
  (if truthy res then
     value ← lift (get_default "value" (VList []) res);
     n ← lift (len value);
     log INFO (CustomersRetrieved n)
   else log ERROR CustomersFailed);;
  lift (value_or_empty res).

Definition get_customer (self : t) (cid : string) : M val :=
  _request self "GET" ("customers(" +:+ cid +:+ ")") None None false.

Definition get_customer_by_id (self : t) (customer_id : string) : M val :=
  get_customer self customer_id.

Definition get_items (self : t) (top : Z) : M val :=
  res ← _request self "GET" "items" (Some [("$top", VInt top)]) None false;
  lift (value_or_empty res).

Definition get_item_by_number (self : t) (item_no : string) : M val :=
  result ← _request self "GET" ("items(" +:+ item_no +:+ ")") None None false;
  if truthy result then ret result
  else
    res ← _request self "GET" "items"
            (Some [("$filter", VStr ("number eq '" +:+ item_no +:+ "'"));
                   ("$top", VInt 1)]) None false;
    lift (first_value res).

Definition get_orders (self : t) (top : Z) : M val :=
  res ← _request self "GET" "salesOrders" (Some [("$top", VInt top)]) None false;
  lift (value_or_empty res).

Definition get_sales_orders (self : t) (filter_query : string) (top : Z) : M val :=
  let params := [("$top", VInt top)] in
  let params :=
    if negb (String.eqb filter_query "")
    then dict_set "$filter" (VStr filter_query) params else params in
  res ← _request self "GET" "salesOrders" (Some params) None false;
  lift (value_or_empty res).

Definition create_customer (self : t) (data : val) : M val :=
  _request self "POST" "customers" None (Some data) false.

Definition get_currency_exchange_rates (self : t) (currency_code : option string)
    (top : Z) : M val :=
  let params := [("$top", VInt top)] in
  let params :=
    if truthy_str currency_code
    then dict_set "$filter" (VStr ("currencyCode eq '" +:+ fstr currency_code +:+ "'"))
           params
    else params in
  res ← _request self "GET" "currencyExchangeRates" (Some params) None false;
  lift (value_or_empty res).

(** The ["$filter"] entry of [params], which only ever holds a string;
    [params.get("$filter", "")]. *)
Definition get_filter (params : list (string * val)) : string :=
  match dict_get "$filter" params with
  | Some (VStr s) => s
  | _ => ""
  end.

Definition custom_url (self : t) (endpoint : string) : result string :=
  APIEndpointBuilder.build_custom_url (url_builder self)
    "techSphereDynamics" "delivery" "v1.0" endpoint true.

(** The [$filter] and [$top] parameters that [get_deliveries] sends. *)
Definition deliveries_params (filters : option (gmap string string)) (top : Z)
  : list (string * val) :=
  let params := [("$top", VInt top)] in
  match filters with
  | None => params
  | Some f =>
      if bool_decide (f = ∅) then params
      else
        let params :=
          if truthy_str (f !! "customer_id")
          then dict_set "$filter"
                 (VStr ("customerId eq '" +:+ fstr (f !! "customer_id") +:+ "'")) params
          else params in
        let params :=
          if truthy_str (f !! "status") then
            let filter_expr := get_filter params in
            let filter_expr :=
              if negb (String.eqb filter_expr "")
              then filter_expr +:+ " and status eq '" +:+ fstr (f !! "status") +:+ "'"
              else "status eq '" +:+ fstr (f !! "status") +:+ "'" in
            dict_set "$filter" (VStr filter_expr) params
          else params in
        if truthy_str (f !! "date_from") || truthy_str (f !! "date_to") then
          let date_filter := [] in
          let date_filter :=
            if truthy_str (f !! "date_from")
            then date_filter ++ ["deliveryDate ge " +:+ fstr (f !! "date_from")]
            else date_filter in
          let date_filter :=
            if truthy_str (f !! "date_to")
            then date_filter ++ ["deliveryDate le " +:+ fstr (f !! "date_to")]
            else date_filter in
          match date_filter with
          | [] => params
          | _ =>
              let filter_expr := get_filter params in
              let date_expr := join " and " date_filter in
              let filter_expr :=
                if negb (String.eqb filter_expr "")
                then filter_expr +:+ " and (" +:+ date_expr +:+ ")"
                else date_expr in
              dict_set "$filter" (VStr filter_expr) params
          end
        else params
  end.

Definition get_deliveries (self : t) (filters : option (gmap string string))
    (top : Z) : M val :=
  let params := deliveries_params filters top in
  url ← lift (custom_url self "deliveries");
  res ← _request self "GET" url (Some params) None true;
  lift (value_or_empty res).

Definition get_delivery (self : t) (delivery_id : string) : M val :=
  if (20 <? String.length delivery_id)%nat && str_contains "-" delivery_id then
    url ← lift (custom_url self ("deliveries(" +:+ delivery_id +:+ ")"));
    _request self "GET" url None None true
  else
    url ← lift (custom_url self "deliveries");
    let params := [("$filter", VStr ("no eq '" +:+ delivery_id +:+ "'"));
                   ("$top", VInt 1)] in
    response ← _request self "GET" url (Some params) None true;
    lift (first_value response).

Definition update_delivery_status (self : t) (delivery_id status notes : string)
  : M val :=
  let data := [("status", VStr status); ("lastUpdateDate", VNone)] in
  let data :=
    if negb (String.eqb notes "") then dict_set "notes" (VStr notes) data
    else data in
  url ← lift (custom_url self ("deliveries('" +:+ delivery_id +:+ "')"));
  _request self "PATCH" url None (Some (VDict data)) true.

Definition get_delivery_routes (self : t) (date_from date_to : string)
    (driver_id : option string) : M val :=
  let filter := "routeDate ge " +:+ date_from +:+ " and routeDate le " +:+ date_to in
  let filter :=
    if truthy_str driver_id
    then filter +:+ " and driverId eq '" +:+ fstr driver_id +:+ "'"
    else filter in
  url ← lift (custom_url self "routes");
  res ← _request self "GET" url (Some [("$filter", VStr filter)]) None true;
  lift (value_or_empty res).

Definition optimize_route (self : t) (route_data : val) : M val :=
  url ← lift (custom_url self "routes/optimize");
  _request self "POST" url None (Some route_data) true.

Definition get_inventory_status (self : t) (warehouse_id : option string) : M val :=
  let params := [] in
  let params :=
    if truthy_str warehouse_id
    then dict_set "$filter" (VStr ("warehouseId eq '" +:+ fstr warehouse_id +:+ "'"))
           params
    else params in
  url ← lift (custom_url self "inventory");
  res ← _request self "GET" url (Some params) None true;
  lift (value_or_empty res).

End BusinessCentralClient.

(** ** Notions used to state the properties *)

Module Obs.

(** The Business Central calls recorded in a trace, in order. *)
Fixpoint api_calls (tr : list event) : list (request * option response) :=
  match tr with
  | [] => []
  | EvApi rq res :: tr' => (rq, res) :: api_calls tr'
  | _ :: tr' => api_calls tr'
  end.

(** The durations slept, in order. *)
Fixpoint sleeps (tr : list event) : list Z :=
  match tr with
  | [] => []
  | EvSleep n :: tr' => n :: sleeps tr'
  | _ :: tr' => sleeps tr'
  end.

(** The calls to the token endpoint. *)
Fixpoint token_posts (tr : list event) : list (request * option response) :=
  match tr with
  | [] => []
  | EvTokenPost rq res :: tr' => (rq, res) :: token_posts tr'
  | _ :: tr' => token_posts tr'
  end.

(** The same world at another instant. *)
Definition at_time (now : Z) (w : world) : world :=
  mkWorld (config w) (token_manager w) now (token_endpoint w) (api w) (trace w).

(** The part of the base URL before the standard API version segment. *)
Definition base_without_version (base : string) : string :=
  hd "" (split "/api/v2.0" base).

(** The prefix shared by the company-scoped delivery endpoints. *)
Definition delivery_root (self : BusinessCentralClient.t) (base : string) : string :=
  base_without_version base +:+ "/api/techSphereDynamics/delivery/v1.0/companies("
    +:+ fstr (APIEndpointBuilder.company_id (BusinessCentralClient.url_builder self))
    +:+ ")/".


(** The check that [get_token] makes on the client identity. *)
Definition configured (cfg : Config.AppConfig) : bool :=
  truthy_str (Config.client_id (Config.azure_ad cfg))
  && truthy_str (Config.client_secret (Config.azure_ad cfg))
  && truthy_str (Config.tenant_id (Config.azure_ad cfg)).

(** [w'] is [w] after some events satisfying [P]. *)
Definition extends (P : list event -> Prop) (w w' : world) : Prop :=
  exists tr, trace w' = trace w ++ tr /\ P tr.

(** The events of a credential acquisition. *)
Definition token_event (e : event) : Prop :=
  match e with
  | EvTokenPost _ _ | EvPrint _ => True
  | _ => False
  end.

(** What a credential acquisition may change: it leaves the configuration
    and the pending Business Central answers alone and records only events
    of its own. *)
Definition token_step (w w' : world) : Prop :=
  config w' = config w /\ api w' = api w /\ extends (Forall token_event) w w'.

(** A Business Central call recorded in the trace was sent with the given
    method, URL, query parameters and body, and the two headers of
    [_request]. *)
Definition sent_as (self : BusinessCentralClient.t) (method url : string)
    (params : option (list (string * val))) (data : option val) (e : event) : Prop :=
  match e with
  | EvApi rq _ =>
      exists token, rq = BusinessCentralClient.api_request self method url token params data
  | _ => True
  end.

Definition is_401 (e : event) : Prop :=
  match e with
  | EvApi _ (Some r) => status_code r = 401
  | _ => False
  end.

(** Every 401 answer of Business Central is followed by the debug record of
    the response and then by one invalidation of the cached token, and no
    invalidation occurs anywhere else. *)
Inductive paired : list event -> Prop :=
  | paired_nil : paired []
  | paired_401 (rq : request) (r : response) (l : log_record) (tr : list event) :
      status_code r = 401 -> paired tr ->
      paired (EvApi rq (Some r) :: EvLog DEBUG l :: EvInvalidate :: tr)
  | paired_other (e : event) (tr : list event) :
      ~ is_401 e -> e <> EvInvalidate -> paired tr -> paired (e :: tr).

Fixpoint count_401 (tr : list event) : nat :=
  match tr with
  | [] => 0
  | EvApi _ (Some r) :: tr' =>
      if status_code r =? 401 then S (count_401 tr') else count_401 tr'
  | _ :: tr' => count_401 tr'
  end.

Fixpoint count_invalidate (tr : list event) : nat :=
  match tr with
  | [] => 0
  | EvInvalidate :: tr' => S (count_invalidate tr')
  | _ :: tr' => count_invalidate tr'
  end.

(** What one run of the retry loop over [n] indices records. *)
Definition loop_trace (self : BusinessCentralClient.t) (method url : string)
    (params : option (list (string * val))) (data : option val) (n : nat)
    (tr : list event) : Prop :=
  Forall (sent_as self method url params data) tr /\ paired tr /\
  (length (api_calls tr) <= n)%nat.

(** Events that are neither network calls nor invalidations. *)
Definition quiet (e : event) : Prop :=
  match e with
  | EvLog _ _ | EvSleep _ => True
  | _ => False
  end.

(** The events of an attempt that Business Central answers with a server
    error, with the cached token [tok]. *)
Definition attempt_5xx (self : BusinessCentralClient.t) (method url tok : string)
    (params : option (list (string * val))) (data : option val)
    (i : nat) (r : response) : list event :=
  [EvLog DEBUG (BCRequest (i + 1) method url params data);
   EvApi (BusinessCentralClient.api_request self method url tok params data) (Some r);
   EvLog DEBUG (BCResponse (status_code r) (str_take 200 (text r)));
   EvLog WARNING (ServerError (status_code r));
   EvSleep (2 ^ Z.of_nat i)].

(** The events of consecutive such attempts, the first with index [i]. *)
Fixpoint backoff_trace (self : BusinessCentralClient.t) (method url tok : string)
    (params : option (list (string * val))) (data : option val)
    (i : nat) (fails : list response) : list event :=
  match fails with
  | [] => []
  | r :: fails' =>
      attempt_5xx self method url tok params data i r
        ++ backoff_trace self method url tok params data (S i) fails'
  end.

(** The time these attempts take, in microseconds. *)
Fixpoint backoff_time (i : nat) (fails : list response) : Z :=
  match fails with
  | [] => 0
  | r :: fails' => elapsed r + 2 ^ Z.of_nat i * 1000000 + backoff_time (S i) fails'
  end.

(** The URL that [_request] calls. *)
Definition resolved_url (self : BusinessCentralClient.t) (path_or_url : string)
    (is_full_url : bool) : string :=
  if is_full_url then path_or_url
  else APIEndpointBuilder.build_standard_url
         (BusinessCentralClient.url_builder self) path_or_url.

(** What [_request] returns for a 200 answer. *)
Definition success_value (r : response) : val :=
  match json r with
  | Some j => j
  | None => VDict [("success", VBool true); ("raw_response", VStr (text r))]
  end.

(** The identity is configured and the token manager holds the non-empty
    token [tok], which expires at [e]. *)
Definition holds_token (w : world) (tok : string) (e : Z) : Prop :=
  configured (config w) = true /\
  _token (token_manager w) = Some tok /\ tok <> "" /\
  _expires (token_manager w) = Some e.

(** The response that the loop has last seen after the answers [fails]. *)
Definition last_response (fails : list response) (resp : option response)
  : option response :=
  match last fails with
  | Some r => Some r
  | None => resp
  end.

Definition server_error (r : response) : Prop :=
  500 <= status_code r /\ 0 <= elapsed r.

End Obs.
Export Obs.

(** ** Concrete configurations and worlds *)

Module Examples.

Definition env : gmap string string :=
  <["AZURE_TENANT_ID" := "T"]>
    (<["AZURE_CLIENT_ID" := "app"]>
       (<["AZURE_CLIENT_SECRET" := "secret"]> (<["BC_COMPANY_ID" := "C"]> ∅))).

Definition cfg : Config.AppConfig := Config.load env.

Definition client : BusinessCentralClient.t := BusinessCentralClient.init cfg.

(** The token manager with a token cached until one hour after the epoch. *)
Definition tm_cached : AzureTokenManager :=
  mkTM (Some "tok") (Some 3600000000) (_scope Auth.init).

(** A configured process at the epoch, with a cached token and the given
    answers of Business Central to come. *)
Definition world_with (answers : list net) : world :=
  mkWorld cfg tm_cached 0 [] answers [].

Definition error_500 (body : string) : response := mkResponse 500 body None 0.

Definition unauthorized_401 : response := mkResponse 401 "expired" None 0.

Definition ok_200 : response := mkResponse 200 "{}" (Some (VDict [])) 0.

(** A token response with the given lifetime. *)
Definition token_200 (lifetime : Z) : response :=
  mkResponse 200 "{}"
    (Some (VDict [("access_token", VStr "tok2"); ("expires_in", VInt lifetime)])) 0.

(** Three server errors, then a 200. *)
Definition world_three_failures : world :=
  world_with [Answers (error_500 "a"); Answers (error_500 "b");
              Answers (error_500 "c"); Answers ok_200].

(** The filters of the specification's example for [get_deliveries]. *)
Definition filters_delivered : gmap string string :=
  <["status" := "Delivered"]> (<["date_from" := "2024-01-01"]> ∅).

(** A configured process with no token yet, whose token endpoint answers
    with a lifetime of 3600 seconds. *)
Definition world_fetch : world :=
  mkWorld cfg Auth.init 1700000000000000 [Answers (token_200 3600)] [] [].

(** A configured process with no token yet, whose call to the token endpoint
    times out after 30 seconds. *)
Definition world_token_timeout : world :=
  mkWorld cfg Auth.init 0 [Fails 30000000] [] [].

(** No identity in the environment: the documented mock data mode. *)
Definition cfg_mock : Config.AppConfig := Config.load ∅.

Definition client_mock : BusinessCentralClient.t := BusinessCentralClient.init cfg_mock.

Definition world_mock : world := mkWorld cfg_mock Auth.init 0 [] [] [].

End Examples.

(** ** Configuration check ([config.py]) *)

Module Validation.
Import Config.

(** The record that [validate] logs. *)
Inductive verdict : Type :=
  | ConfigurationValid
  | MockDataMode
  | PartialCredentials.

(** [o is not None] *)
Definition is_not_none (o : option string) : bool :=
  match o with
  | Some _ => true
  | None => false
  end.

(** [AppConfig.validate]: the value returned and the record logged.  The body
    of its [try] reads attributes only. *)
Definition validate (self : AppConfig) : bool * verdict :=
  let has_azure :=
    is_not_none (tenant_id (azure_ad self))
    && is_not_none (client_id (azure_ad self))
    && is_not_none (client_secret (azure_ad self)) in
  let has_bc := is_not_none (company_id (bc self)) in
  if has_azure && has_bc then (true, ConfigurationValid)
  else if negb has_azure && negb has_bc then (false, MockDataMode)
  else (false, PartialCredentials).

End Validation.

(** ** Further notions used to state the properties *)

Module Outcome.
Import BusinessCentralClient.

(** How the loop is left by an answer that is neither a 401 nor a server
    error. *)
Definition final_flow (r : response) : flow :=
  if (status_code r =? 200) || (status_code r =? 201) || (status_code r =? 204) then
    if status_code r =? 204 then Return (VDict [("success", VBool true)])
    else Return (success_value r)
  else Fallthrough (Some r).

(** What [_request] returns and records once the loop is left. *)
Definition finish (method path_or_url : string) (out : flow) : val * list event :=
  match out with
  | Return v => (v, [])
  | Fallthrough (Some resp) =>
      (VNone, [EvLog ERROR (BCApiError method path_or_url (status_code resp)
                              (str_take 200 (text resp)))])
  | Fallthrough None => (VNone, [EvLog ERROR (BCApiNoResponse method path_or_url)])
  end.

(** An answer after which [_request] gives up at once. *)
Definition refusal (r : response) : Prop :=
  status_code r <> 200 /\ status_code r <> 201 /\ status_code r <> 204 /\
  status_code r <> 401 /\ status_code r < 500.

(** The form that [_fetch] posts. *)
Definition token_request (w : world) : request :=
  mkRequest "POST"
    (fstr (Config.authority (Config.azure_ad (config w))) +:+ "/oauth2/v2.0/token")
    [("Content-Type", "application/x-www-form-urlencoded")] None
    (Some [("grant_type", Some "client_credentials");
           ("client_id", Config.client_id (Config.azure_ad (config w)));
           ("client_secret", Config.client_secret (Config.azure_ad (config w)));
           ("scope", Some (_scope (token_manager w)))])
    None 30.

(** What the network does at the next call to the token endpoint, as the
    trace records it. *)
Definition next_token_outcome (w : world) : option response :=
  match token_endpoint w with
  | Answers r :: _ => Some r
  | _ => None
  end.

(** The tokens of the [Authorization] headers of the recorded calls. *)
Definition bearer_headers (tr : list event) : list (option string) :=
  map (fun call => dict_get "Authorization" (rq_headers (fst call))) (api_calls tr).

End Outcome.
Export Outcome.

(** The filter of [get_deliveries] as the clauses it stands for. *)
Module FilterSpec.

Definition clause (o : option string) (render : string -> string) : list string :=
  if truthy_str o then [render (fstr o)] else [].

Definition field_clauses (f : gmap string string) : list string :=
  clause (f !! "customer_id") (fun v => "customerId eq '" +:+ v +:+ "'")
  ++ clause (f !! "status") (fun v => "status eq '" +:+ v +:+ "'").

Definition date_clauses (f : gmap string string) : list string :=
  clause (f !! "date_from") (fun v => "deliveryDate ge " +:+ v)
  ++ clause (f !! "date_to") (fun v => "deliveryDate le " +:+ v).

(** The field clauses, then the date clauses as one group, which is put in
    parentheses when a field clause precedes it. *)
Definition conjunction (f : gmap string string) : list string :=
  field_clauses f
  ++ match date_clauses f with
     | [] => []
     | dates =>
         [match field_clauses f with
          | [] => join " and " dates
          | _ => "(" +:+ join " and " dates +:+ ")"
          end]
     end.

Definition expected_params (filters : option (gmap string string)) (top : Z)
  : list (string * val) :=
  ("$top", VInt top)
  :: match filters with
     | None => []
     | Some f =>
         match conjunction f with
         | [] => []
         | clauses => [("$filter", VStr (join " and " clauses))]
         end
     end.

End FilterSpec.

(** ** Further concrete worlds *)

Module Scenarios.
Import Examples.

(** A cached token that Business Central refuses once, and a token endpoint
    that grants a new one. *)
Definition world_refresh : world :=
  mkWorld cfg tm_cached 0 [Answers (token_200 3600)]
    [Answers unauthorized_401; Answers ok_200] [].

(** A cached token that Business Central refuses, and a token endpoint that
    refuses too. *)
Definition world_refresh_refused : world :=
  mkWorld cfg tm_cached 0 [Answers (mkResponse 400 "invalid_client" None 0)]
    [Answers unauthorized_401] [].

(** An environment in which every variable is set and the client id is
    empty. *)
Definition env_empty_client : gmap string string :=
  <["AZURE_CLIENT_ID" := ""]> env.

Definition not_found_404 : response := mkResponse 404 "not found" None 0.

Definition one_item_200 : response :=
  mkResponse 200 "{}" (Some (VDict [("value", VList [VDict [("number", VStr "ABC")]])])) 0.

(** A keyed request that is refused, then a listing with one record. *)
Definition world_item_fallback : world :=
  world_with [Answers not_found_404; Answers one_item_200].

End Scenarios.

(** ** Worlds for an exhausted budget and for the delivery operations *)

Module Cases.
Import Examples.











End Cases.

(** * Properties *)

(** ** Strings *)

#[local] Arguments String.append !_ _ / : simpl nomatch.

Lemma append_assoc (a b c : string) : (a +:+ b) +:+ c = a +:+ b +:+ c.
Proof. induction a as [|x a IH]; simpl; [reflexivity | now rewrite IH]. Qed.

Lemma append_nil_r (a : string) : a +:+ "" = a.
Proof. induction a as [|x a IH]; simpl; [reflexivity | now rewrite IH]. Qed.



Lemma prefix_append (a s : string) : String.prefix a (a +:+ s) = true.
Proof.
  induction a as [|x a IH]; simpl; [destruct s; reflexivity |].
  destruct (ascii_dec x x); [exact IH | congruence].
Qed.

Lemma prefix_inv (a s : string) :
  String.prefix a s = true -> exists v, s = a +:+ v.
Proof.
  revert s. induction a as [|x a IH]; intros s H.
  - exists s. reflexivity.
  - destruct s as [|y s]; simpl in H; [discriminate |].
    destruct (ascii_dec x y) as [->|]; [| discriminate].
    destruct (IH _ H) as [v ->]. exists v. reflexivity.
Qed.

Lemma str_contains_spec (sub s : string) :
  str_contains sub s = true <-> exists u v, s = u +:+ sub +:+ v.
Proof.
  split.
  - induction s as [|c s IH]; intros H.
    + destruct sub; [exists "", ""; reflexivity | discriminate H].
    + cbn [str_contains] in H. apply orb_true_iff in H as [H|H].
      * destruct (prefix_inv _ _ H) as [v Hv]. exists "", v. exact Hv.
      * destruct (IH H) as (u & v & ->). exists (String c u), v. reflexivity.
  - intros (u & v & ->). induction u as [|c u IH].
    + change ("" +:+ sub +:+ v) with (sub +:+ v).
      destruct (sub +:+ v) eqn:E; cbn [str_contains]; rewrite <- E, prefix_append;
        reflexivity.
    + change (String c u +:+ sub +:+ v) with (String c (u +:+ sub +:+ v)).
      cbn [str_contains]. rewrite IH. apply orb_true_r.
Qed.

(** The first part that [split] returns is the text before the first
    occurrence of the separator. *)
Lemma split_aux_first (sep p r cur : string) :
  sep <> "" ->
  (forall u v, p +:+ sep +:+ r = u +:+ sep +:+ v ->
     (String.length p <= String.length u)%nat) ->
  exists tl, split_aux sep 0 cur (p +:+ sep +:+ r) = (cur +:+ p) :: tl.
Proof.
  intros Hsep. revert cur. induction p as [|a p IH]; intros cur Hfirst.
  - destruct sep as [|c sep]; [congruence |]. cbn [append split_aux].
    change (String c (sep +:+ r)) with (String c sep +:+ r).
    rewrite prefix_append, append_nil_r. eauto.
  - cbn [append split_aux].
    destruct (String.prefix sep (String a (p +:+ sep +:+ r))) eqn:E.
    + destruct (prefix_inv _ _ E) as [v Hv].
      specialize (Hfirst "" v Hv). simpl in Hfirst. lia.
    + destruct (IH (cur +:+ String a "")) as [tl Htl].
      * intros u v Huv. specialize (Hfirst (String a u) v).
        simpl in Hfirst. rewrite Huv in Hfirst. specialize (Hfirst eq_refl). lia.
      * exists tl. rewrite Htl, append_assoc. reflexivity.
Qed.

Lemma split_aux_absent (sep s cur : string) :
  (forall u v, s <> u +:+ sep +:+ v) ->
  split_aux sep 0 cur s = [cur +:+ s].
Proof.
  revert cur. induction s as [|c s IH]; intros cur Habs; cbn [split_aux].
  - rewrite append_nil_r. reflexivity.
  - destruct (String.prefix sep (String c s)) eqn:E.
    + destruct (prefix_inv _ _ E) as [v Hv]. destruct (Habs "" v Hv).
    + rewrite IH, append_assoc; [reflexivity |].
      intros u v Huv. apply (Habs (String c u) v). rewrite Huv. reflexivity.
Qed.

Lemma split_aux_nonempty (sep : string) (k : nat) (cur s : string) :
  exists h tl, split_aux sep k cur s = h :: tl.
Proof.
  revert k cur. induction s as [|c s IH]; intros k cur; cbn [split_aux]; [eauto |].
  destruct k; [| apply IH].
  destruct (String.prefix sep (String c s)); [eauto | apply IH].
Qed.

Lemma index0_split (base : string) :
  index0 (split "/api/v2.0" base) = Ok (base_without_version base).
Proof.
  unfold base_without_version, split.
  destruct (split_aux_nonempty "/api/v2.0" 0 "" base) as (h & tl & ->).
  reflexivity.
Qed.

Lemma base_without_version_first (p r : string) :
  (forall u v, p +:+ "/api/v2.0" +:+ r = u +:+ "/api/v2.0" +:+ v ->
     (String.length p <= String.length u)%nat) ->
  base_without_version (p +:+ "/api/v2.0" +:+ r) = p.
Proof.
  intros H. unfold base_without_version, split.
  destruct (split_aux_first "/api/v2.0" p r "" ltac:(discriminate) H) as [tl ->].
  reflexivity.
Qed.

Example split_commas : split "," "a,b,,c" = ["a"; "b"; ""; "c"].
Proof. reflexivity. Qed.

Example split_overlapping : split "aa" "aaa" = [""; "a"].
Proof. reflexivity. Qed.

Example split_absent : split "/api/v2.0" "https://x/custom" = ["https://x/custom"].
Proof. reflexivity. Qed.

Example split_twice :
  split "/api/v2.0" "https://x/api/v2.0/T/api/v2.0" = ["https://x"; "/T"; ""].
Proof. reflexivity. Qed.

Lemma base_without_version_absent (base : string) :
  (forall u v, base <> u +:+ "/api/v2.0" +:+ v) ->
  base_without_version base = base.
Proof.
  intros H. unfold base_without_version, split.
  rewrite (split_aux_absent _ _ _ H). reflexivity.
Qed.

(** ** Endpoint builder *)

Lemma build_custom_url_some (self : APIEndpointBuilder.t)
    (base publisher app_group version endpoint : string) (use_company : bool) :
  APIEndpointBuilder.base_url self = Some base ->
  APIEndpointBuilder.build_custom_url self publisher app_group version endpoint
    use_company
  = Ok ((base_without_version base +:+ "/api/" +:+ publisher +:+ "/" +:+ app_group
           +:+ "/" +:+ version)
        +:+ (if use_company
             then "/companies(" +:+ fstr (APIEndpointBuilder.company_id self) +:+ ")/"
                    +:+ endpoint
             else "/" +:+ endpoint)).
Proof.
  intros Hb. unfold APIEndpointBuilder.build_custom_url.
  rewrite Hb, index0_split. destruct use_company; reflexivity.
Qed.

(** C6. With a base URL [p/api/v2.0r] in which [/api/v2.0] does not occur
    before the end of [p], a company-scoped custom URL is
    [p/api/{publisher}/{app_group}/{version}/companies({company_id})/{endpoint}]:
    the base is cut at the first occurrence of the standard version segment. *)
Theorem C6_build_custom_url_company_scoped (self : APIEndpointBuilder.t)
    (p r publisher app_group version endpoint : string) :
  APIEndpointBuilder.base_url self = Some (p +:+ "/api/v2.0" +:+ r) ->
  (forall u v, p +:+ "/api/v2.0" +:+ r = u +:+ "/api/v2.0" +:+ v ->
     (String.length p <= String.length u)%nat) ->
  APIEndpointBuilder.build_custom_url self publisher app_group version endpoint true
  = Ok (p +:+ "/api/" +:+ publisher +:+ "/" +:+ app_group +:+ "/" +:+ version
          +:+ "/companies(" +:+ fstr (APIEndpointBuilder.company_id self) +:+ ")/"
          +:+ endpoint).
Proof.
  intros Hb Hfirst.
  rewrite (build_custom_url_some _ _ _ _ _ _ _ Hb).
  rewrite (base_without_version_first _ _ Hfirst).
  rewrite !append_assoc. reflexivity.
Qed.

(** The example of the specification: base [https://x/v2.0/T/prod/api/v2.0],
    company [C]. *)
Lemma C6_witness :
  APIEndpointBuilder.build_custom_url
    (APIEndpointBuilder.mk (Some "https://x/v2.0/T/prod/api/v2.0") (Some "C"))
    "acme" "g" "v1" "things" true
  = Ok "https://x/v2.0/T/prod/api/acme/g/v1/companies(C)/things".
Proof.
  apply (C6_build_custom_url_company_scoped
           (APIEndpointBuilder.mk (Some "https://x/v2.0/T/prod/api/v2.0") (Some "C"))
           "https://x/v2.0/T/prod" "" "acme" "g" "v1" "things").
  - reflexivity.
  - intros u v H.
    do 21 (destruct u as [|? u]; [discriminate H | injection H as _ H]).
    simpl. lia.
Defined.

(** ** The monad *)

Lemma bind_ok {A B : Type} (m : M A) (k : A -> M B) (w w' : world) (a : A) :
  m w = (Ok a, w') -> (m ≫= k) w = k a w'.
Proof. intros H. unfold mbind, M_bind, bind. rewrite H. reflexivity. Qed.

Lemma bind_raise {A B : Type} (m : M A) (k : A -> M B) (w w' : world) (e : exn) :
  m w = (Raise e, w') -> (m ≫= k) w = (Raise e, w').
Proof. intros H. unfold mbind, M_bind, bind. rewrite H. reflexivity. Qed.

Ltac run :=
  cbv beta iota zeta delta
    [mbind M_bind mret M_ret bind ret raise lift log sleep emit advance
     get_config utcnow get_tm put_tm Auth.set_token Auth.set_expires
     post_token call_api] in *;
  cbn [fst snd config token_manager clock token_endpoint api trace
       _token _expires _scope] in *.

Ltac norm :=
  cbv beta;
  cbn [fst snd config token_manager clock token_endpoint api trace
       _token _expires _scope] in *.

(** ** Token manager *)

Lemma extends_refl (P : list event -> Prop) (w : world) : P [] -> extends P w w.
Proof. intros H. exists []. split; [now rewrite app_nil_r | exact H]. Qed.

Lemma extends_trans (P Q R : list event -> Prop) (w1 w2 w3 : world) :
  (forall a b, P a -> Q b -> R (a ++ b)) ->
  extends P w1 w2 -> extends Q w2 w3 -> extends R w1 w3.
Proof.
  intros H (a & Ha & Pa) (b & Hb & Qb). exists (a ++ b).
  split; [rewrite Hb, Ha, app_assoc; reflexivity | auto].
Qed.

Lemma extends_weaken (P Q : list event -> Prop) (w w' : world) :
  (forall a, P a -> Q a) -> extends P w w' -> extends Q w w'.
Proof. intros H (a & Ha & Pa). exists a. auto. Qed.

Lemma token_step_refl (w : world) : token_step w w.
Proof. repeat split. apply extends_refl. constructor. Qed.

Lemma fetch_step (w : world) : token_step w (snd (Auth._fetch w)).
Proof.
  unfold Auth._fetch, token_step, extends. run.
  destruct (token_endpoint w) as [|[r|d] rest]; cbn.
  - repeat split. eexists. split; [reflexivity | repeat constructor].
  - destruct (status_code r =? 200); cbn.
    + repeat (case_match; cbn);
        (repeat split; eexists; split; [reflexivity | repeat constructor]).
    + repeat split. eexists. split; [rewrite <- app_assoc; reflexivity |].
      repeat constructor.
  - repeat split. eexists. split; [reflexivity | repeat constructor].
Qed.

Lemma valid_pure (w : world) : snd (Auth._valid w) = w.
Proof. unfold Auth._valid. run. repeat case_match; destruct w; reflexivity. Qed.

Lemma valid_value (w : world) :
  fst (Auth._valid w)
  = Ok (match _token (token_manager w), _expires (token_manager w) with
        | Some _, Some e => clock w <? e
        | _, _ => false
        end).
Proof. unfold Auth._valid. run. repeat case_match; reflexivity. Qed.

Lemma get_token_unconfigured (w : world) :
  configured (config w) = false -> Auth.get_token w = (Ok None, w).
Proof.
  unfold configured, Auth.get_token. run. intros H.
  repeat (apply andb_false_iff in H as [H|H]); rewrite H; cbn;
    rewrite ?orb_true_r; reflexivity.
Qed.

Lemma get_token_configured (w : world) :
  configured (config w) = true ->
  Auth.get_token w
  = match _token (token_manager w), _expires (token_manager w) with
    | Some tok, Some e => if clock w <? e then (Ok (Some tok), w) else Auth._fetch w
    | _, _ => Auth._fetch w
    end.
Proof.
  unfold configured, Auth.get_token. intros H.
  apply andb_true_iff in H as [H H3]. apply andb_true_iff in H as [H1 H2].
  pose proof (valid_pure w) as Hp. pose proof (valid_value w) as Hv.
  destruct (Auth._valid w) as [b w1] eqn:E. cbn in Hp, Hv. subst w1 b.
  run. rewrite H1, H2, H3. cbn [negb orb]. rewrite E.
  destruct (_token (token_manager w)) eqn:Ht; [| reflexivity].
  destruct (_expires (token_manager w)); [| reflexivity].
  destruct (clock w <? z); [| reflexivity]. cbv beta. rewrite Ht. reflexivity.
Qed.

Lemma get_token_cached (w : world) (tok : string) (e : Z) :
  configured (config w) = true ->
  _token (token_manager w) = Some tok ->
  _expires (token_manager w) = Some e ->
  clock w < e ->
  Auth.get_token w = (Ok (Some tok), w).
Proof.
  intros Hc Ht He Hlt. rewrite (get_token_configured w Hc), Ht, He.
  apply Z.ltb_lt in Hlt. rewrite Hlt. reflexivity.
Qed.

Lemma get_token_step (w : world) : token_step w (snd (Auth.get_token w)).
Proof.
  destruct (configured (config w)) eqn:Hc.
  - rewrite (get_token_configured w Hc).
    repeat case_match; try apply fetch_step; apply token_step_refl.
  - rewrite (get_token_unconfigured w Hc). apply token_step_refl.
Qed.

(** ** Traces *)

Lemma api_calls_app (a b : list event) : api_calls (a ++ b) = api_calls a ++ api_calls b.
Proof.
  induction a as [|e a IH]; [reflexivity |].
  destruct e; cbn; rewrite IH; reflexivity.
Qed.

Lemma sleeps_app (a b : list event) : sleeps (a ++ b) = sleeps a ++ sleeps b.
Proof.
  induction a as [|e a IH]; [reflexivity |].
  destruct e; cbn; rewrite IH; reflexivity.
Qed.

Lemma count_401_app (a b : list event) :
  count_401 (a ++ b) = (count_401 a + count_401 b)%nat.
Proof.
  induction a as [|e a IH]; [reflexivity |].
  destruct e as [| | |rq [r|]| |]; cbn; rewrite ?IH; try reflexivity.
  destruct (status_code r =? 401); cbn; rewrite ?IH; reflexivity.
Qed.

Lemma count_invalidate_app (a b : list event) :
  count_invalidate (a ++ b) = (count_invalidate a + count_invalidate b)%nat.
Proof.
  induction a as [|e a IH]; [reflexivity |].
  destruct e; cbn; rewrite IH; reflexivity.
Qed.

Lemma paired_app (a b : list event) : paired a -> paired b -> paired (a ++ b).
Proof.
  intros Ha Hb. induction Ha as [|rq r l tr Hr Htr IH|e tr He1 He2 Htr IH].
  - exact Hb.
  - cbn. apply paired_401; assumption.
  - cbn. apply paired_other; assumption.
Qed.

Lemma paired_count (tr : list event) :
  paired tr -> count_invalidate tr = count_401 tr.
Proof.
  induction 1 as [|rq r l tr Hr Htr IH|e tr He1 He2 Htr IH].
  - reflexivity.
  - cbn. apply Z.eqb_eq in Hr. rewrite Hr, IH. reflexivity.
  - destruct e as [| | |rq [r|]| |]; cbn in *; try congruence.
    destruct (status_code r =? 401) eqn:E; [| exact IH].
    apply Z.eqb_eq in E. contradiction.
Qed.

Lemma token_events_paired (tr : list event) : Forall token_event tr -> paired tr.
Proof.
  induction 1 as [|e tr He Htr IH]; [constructor |].
  apply paired_other; [| | exact IH]; destruct e; cbn in *; try easy.
Qed.

Lemma token_events_api_calls (tr : list event) :
  Forall token_event tr -> api_calls tr = [].
Proof.
  induction 1 as [|e tr He Htr IH]; [reflexivity |].
  destruct e; cbn in *; try contradiction; exact IH.
Qed.

Lemma token_events_sent_as (self : BusinessCentralClient.t) (method url : string)
    (params : option (list (string * val))) (data : option val) (tr : list event) :
  Forall token_event tr -> Forall (sent_as self method url params data) tr.
Proof.
  intros H. eapply Forall_impl; [exact H |].
  intros e He. destruct e; cbn in *; try contradiction; exact I.
Qed.

(** ** Request executor: what every execution records *)

Section LoopTrace.
Import BusinessCentralClient.
Variable self : BusinessCentralClient.t.
Variables method url : string.
Variable params : option (list (string * val)).
Variable data : option val.

Local Abbreviation good := (loop_trace self method url params data).

Lemma loop_trace_app (n m : nat) (a b : list event) :
  good n a -> good m b -> good (n + m) (a ++ b).
Proof.
  intros (Ha1 & Ha2 & Ha3) (Hb1 & Hb2 & Hb3). repeat split.
  - apply Forall_app; auto.
  - apply paired_app; assumption.
  - rewrite api_calls_app, length_app. lia.
Qed.

Lemma loop_trace_mono (n m : nat) (a : list event) :
  (n <= m)%nat -> good n a -> good m a.
Proof. intros H (H1 & H2 & H3). repeat split; auto. lia. Qed.

Lemma loop_trace_token (tr : list event) : Forall token_event tr -> good 0 tr.
Proof.
  intros H. repeat split.
  - apply token_events_sent_as, H.
  - apply token_events_paired, H.
  - rewrite (token_events_api_calls _ H). reflexivity.
Qed.

Lemma loop_trace_quiet (tr : list event) :
  Forall quiet tr -> good 0 tr.
Proof.
  induction 1 as [|e tr He Htr (H1 & H2 & H3)]; [repeat split; constructor |].
  destruct e; try contradiction; (repeat split;
    [constructor; [exact I | assumption]
    | apply paired_other; [intros [] | discriminate | assumption]
    | exact H3]).
Qed.

Lemma loop_trace_call (token : string) (res : option response) (tl : list event) :
  ~ is_401 (EvApi (api_request self method url token params data) res) ->
  Forall quiet tl ->
  good 1 (EvApi (api_request self method url token params data) res :: tl).
Proof.
  intros H Hq. apply (loop_trace_quiet) in Hq as (H1 & H2 & H3). repeat split.
  - constructor; [exists token; reflexivity | exact H1].
  - apply paired_other; [exact H | discriminate | exact H2].
  - cbn [api_calls length]. lia.
Qed.

Lemma loop_trace_401 (token : string) (r : response) (l : log_record)
    (tl : list event) :
  status_code r = 401 ->
  Forall quiet tl ->
  good 1 (EvApi (api_request self method url token params data) (Some r)
            :: EvLog DEBUG l :: EvInvalidate :: tl).
Proof.
  intros H Hq. apply (loop_trace_quiet) in Hq as (H1 & H2 & H3). repeat split.
  - repeat constructor; [exists token; reflexivity | exact H1].
  - apply paired_401; [exact H | exact H2].
  - cbn [api_calls length]. lia.
Qed.

Lemma extends_loop (n m k : nat) (w1 w2 w3 : world) :
  (n + m <= k)%nat ->
  extends (good n) w1 w2 -> extends (good m) w2 w3 -> extends (good k) w1 w3.
Proof.
  intros H. apply extends_trans. intros a b Ha Hb.
  apply (loop_trace_mono (n + m)); [exact H | apply loop_trace_app; assumption].
Qed.

Lemma extends_one (P : list event -> Prop) (w w' : world) (tr : list event) :
  trace w' = trace w ++ tr -> P tr -> extends P w w'.
Proof. intros H1 H2. exists tr. auto. Qed.

Lemma request_loop_invariant (attempts : list nat) (resp : option response) (w : world) :
  let w' := snd (request_loop self method url params data attempts resp w) in
  config w' = config w /\ extends (good (length attempts)) w w'.
Proof.
  revert resp w. induction attempts as [|i rest IH]; intros resp w.
  - cbn. split; [reflexivity |]. apply extends_refl. repeat split; constructor.
  - cbn [request_loop length].
    set (w1 := snd (log DEBUG (BCRequest (i + 1) method url params data) w)).
    rewrite (bind_ok _ _ w w1 tt) by reflexivity.
    assert (H1 : extends (good 0) w w1).
    { eapply extends_one; [reflexivity |]. apply loop_trace_quiet. repeat constructor. }
    pose proof (get_token_step w1) as (Hc & Ha & Htok).
    apply (extends_weaken _ (good 0)) in Htok; [| apply loop_trace_token].
    pose proof (extends_loop 0 0 0 _ _ _ (le_n _) H1 Htok) as H2.
    clear H1 Htok.
    destruct (Auth.get_token w1) as [[token|e] w2] eqn:Eg; cbn [snd] in *.
    2: { rewrite (bind_raise _ _ _ _ _ Eg). cbn [snd]. split; [exact Hc |].
         revert H2. apply extends_weaken. intros a. apply loop_trace_mono. lia. }
    rewrite (bind_ok _ _ _ _ _ Eg). clear Eg.
    assert (Hc' : config w2 = config w) by exact Hc. clear Hc Ha. clearbody w1.
    destruct (negb (truthy_str token)).
    { run. split; [exact Hc' |].
      eapply (extends_loop 0 0); [lia | exact H2 |].
      eapply extends_one; [reflexivity |]. apply loop_trace_quiet. repeat constructor. }
    destruct (api w2) as [|[r|d] api'] eqn:Eapi; run; rewrite Eapi;
      cbn [fst snd config token_manager clock token_endpoint api trace].
    { split; [exact Hc' |].
      eapply (extends_loop 0 1); [lia | exact H2 |].
      eapply extends_one; [reflexivity |]. apply loop_trace_call; [intros [] | constructor]. }
    2: { split; [exact Hc' |].
      eapply (extends_loop 0 1); [lia | exact H2 |].
      eapply extends_one; [reflexivity |]. apply loop_trace_call; [intros [] | constructor]. }
    destruct ((status_code r =? 200) || (status_code r =? 201)
              || (status_code r =? 204)) eqn:E2xx.
    { assert (Hne : status_code r <> 401) by lia.
      assert (extends (good (S (length rest))) w
                (mkWorld (config w2) (token_manager w2) (clock w2 + elapsed r)
                   (token_endpoint w2) api'
                   ((trace w2 ++ [EvApi (api_request self method url (fstr token)
                                           params data) (Some r)])
                      ++ [EvLog DEBUG (BCResponse (status_code r)
                                         (str_take 200 (text r)))]))).
      { eapply (extends_loop 0 1); [lia | exact H2 |].
        eapply extends_one; [cbn [trace]; rewrite <- app_assoc; reflexivity |].
        apply loop_trace_call; [exact Hne | repeat constructor]. }
      destruct (status_code r =? 204); [| destruct (json r)]; norm; auto. }
    destruct (status_code r =? 401) eqn:E401; norm.
    { apply Z.eqb_eq in E401.
      match goal with
      | |- context [request_loop _ _ _ _ _ rest ?r0 ?w3] =>
          destruct (IH r0 w3) as [IHc IHe]; cbn [config] in IHc
      end.
      split; [congruence |].
      eapply (extends_loop 1 (length rest)); [lia | | exact IHe].
      eapply (extends_loop 0 1); [lia | exact H2 |].
      eapply extends_one; [cbn [trace]; rewrite <- !app_assoc; reflexivity |].
      apply loop_trace_401; [exact E401 | repeat constructor]. }
    destruct (500 <=? status_code r) eqn:E5xx; norm.
    { match goal with
      | |- context [request_loop _ _ _ _ _ rest ?r0 ?w3] =>
          destruct (IH r0 w3) as [IHc IHe]; cbn [config] in IHc
      end.
      split; [congruence |].
      eapply (extends_loop 1 (length rest)); [lia | | exact IHe].
      eapply (extends_loop 0 1); [lia | exact H2 |].
      eapply extends_one; [cbn [trace]; rewrite <- !app_assoc; reflexivity |].
      apply loop_trace_call; [cbn; lia | repeat constructor]. }
    split; [exact Hc' |].
    eapply (extends_loop 0 1); [lia | exact H2 |].
    eapply extends_one; [cbn [trace]; rewrite <- !app_assoc; reflexivity |].
    apply loop_trace_call; [cbn; lia | repeat constructor].
Qed.

End LoopTrace.

Lemma request_invariant (self : BusinessCentralClient.t) (method path_or_url : string)
    (params : option (list (string * val))) (data : option val) (is_full_url : bool)
    (w : world) :
  let w' := snd (BusinessCentralClient._request self method path_or_url params data
                   is_full_url w) in
  config w' = config w /\
  extends (loop_trace self method (resolved_url self path_or_url is_full_url)
             params data (BusinessCentralClient._retries self)) w w'.
Proof.
  unfold BusinessCentralClient._request. fold (resolved_url self path_or_url is_full_url).
  pose proof (request_loop_invariant self method
                (resolved_url self path_or_url is_full_url) params data
                (seq 0 (BusinessCentralClient._retries self)) None w) as [Hc He].
  rewrite length_seq in He.
  destruct (BusinessCentralClient.request_loop _ _ _ _ _ _ _ w) as [[out|e] w1] eqn:E;
    cbn [snd] in *.
  2: { rewrite (bind_raise _ _ _ _ _ E). auto. }
  rewrite (bind_ok _ _ _ _ _ E).
  destruct out as [v|[resp|]]; run; (split; [exact Hc |]); [exact He | |].
  - eapply extends_loop with (m := 0%nat); [| exact He |]; [lia |].
    eapply extends_one; [reflexivity |]. apply loop_trace_quiet. repeat constructor.
  - eapply extends_loop with (m := 0%nat); [| exact He |]; [lia |].
    eapply extends_one; [reflexivity |]. apply loop_trace_quiet. repeat constructor.
Qed.

(** ** Request executor: server errors with a cached token *)

Lemma backoff_time_nonneg (i : nat) (fails : list response) :
  Forall server_error fails -> 0 <= backoff_time i fails.
Proof.
  intros H. revert i. induction H as [|r fails [_ Hr] _ IH]; intros i; cbn.
  - lia.
  - specialize (IH (S i)). assert (0 < 2 ^ Z.of_nat i) by (apply Z.pow_pos_nonneg; lia).
    lia.
Qed.

Lemma last_response_cons (r : response) (fails : list response)
    (resp : option response) :
  last_response (r :: fails) resp = last_response fails (Some r).
Proof.
  unfold last_response. destruct fails as [|r0 fails]; [reflexivity |].
  rewrite last_cons_cons.
  destruct (last (r0 :: fails)) eqn:E; [reflexivity |].
  apply last_None in E. discriminate.
Qed.

Lemma truthy_str_some (tok : string) : tok <> "" -> truthy_str (Some tok) = true.
Proof. intros H. cbn. apply String.eqb_neq in H. rewrite H. reflexivity. Qed.

Section Backoff.
Import BusinessCentralClient.
Variable self : BusinessCentralClient.t.
Variables method url : string.
Variable params : option (list (string * val)).
Variable data : option val.

Lemma loop_5xx (tok : string) (e : Z) (fails : list response) :
  forall (i : nat) (more : list nat) (resp : option response) (w : world)
         (pending : list net),
    holds_token w tok e ->
    Forall server_error fails ->
    api w = map Answers fails ++ pending ->
    clock w + backoff_time i fails < e ->
    request_loop self method url params data (seq i (length fails) ++ more) resp w
    = request_loop self method url params data more (last_response fails resp)
        (mkWorld (config w) (token_manager w) (clock w + backoff_time i fails)
           (token_endpoint w) pending
           (trace w ++ backoff_trace self method url tok params data i fails)).
Proof.
  induction fails as [|r fails IH]; intros i more resp w pending Htok Hfails Hapi Hclock.
  - cbn in *. rewrite Z.add_0_r, app_nil_r, <- Hapi. destruct w; reflexivity.
  - apply Forall_cons in Hfails as [[Hr He] Hfails].
    pose proof (backoff_time_nonneg (S i) fails Hfails) as Hnn.
    assert (Hpow : 0 < 2 ^ Z.of_nat i) by (apply Z.pow_pos_nonneg; lia).
    destruct Htok as (Hcfg & Ht & Hne & Hex).
    cbn [length seq app request_loop backoff_time] in *.
    set (w1 := snd (log DEBUG (BCRequest (i + 1) method url params data) w)).
    rewrite (bind_ok _ _ w w1 tt) by reflexivity.
    rewrite (bind_ok _ _ w1 w1 (Some tok))
      by (apply (get_token_cached w1 tok e); cbn; auto; lia).
    rewrite (truthy_str_some tok Hne). cbn [negb].
    subst w1. run. rewrite Hapi. cbn [map app]. norm.
    replace ((status_code r =? 200) || (status_code r =? 201)
             || (status_code r =? 204)) with false by lia.
    replace (status_code r =? 401) with false by lia.
    replace (500 <=? status_code r) with true by lia.
    norm. rewrite IH with (pending := pending); norm.
    + rewrite last_response_cons. f_equal. f_equal; [lia |].
      cbn [backoff_trace attempt_5xx app]. rewrite <- !app_assoc. reflexivity.
    + repeat split; assumption.
    + exact Hfails.
    + reflexivity.
    + lia.
Qed.

Lemma loop_success (tok : string) (e : Z) (ok : response) (i : nat)
    (more : list nat) (resp : option response) (w : world) (pending : list net) :
  holds_token w tok e ->
  status_code ok = 200 ->
  api w = Answers ok :: pending ->
  clock w < e ->
  request_loop self method url params data (i :: more) resp w
  = (Ok (Return (success_value ok)),
     mkWorld (config w) (token_manager w) (clock w + elapsed ok) (token_endpoint w)
       pending
       (trace w ++
          [EvLog DEBUG (BCRequest (i + 1) method url params data);
           EvApi (api_request self method url tok params data) (Some ok);
           EvLog DEBUG (BCResponse (status_code ok) (str_take 200 (text ok)))])).
Proof.
  intros (Hcfg & Ht & Hne & Hex) Hok Hapi Hclock.
  cbn [request_loop].
  set (w1 := snd (log DEBUG (BCRequest (i + 1) method url params data) w)).
  rewrite (bind_ok _ _ w w1 tt) by reflexivity.
  rewrite (bind_ok _ _ w1 w1 (Some tok))
    by (apply (get_token_cached w1 tok e); cbn; auto).
  rewrite (truthy_str_some tok Hne). cbn [negb].
  subst w1. run. rewrite Hapi. norm. rewrite Hok. cbn [Z.eqb Pos.eqb orb].
  unfold success_value. destruct (json ok); norm; rewrite <- !app_assoc; reflexivity.
Qed.

Lemma sleeps_backoff (tok : string) (i : nat) (fails : list response) :
  sleeps (backoff_trace self method url tok params data i fails)
  = map (fun j => 2 ^ Z.of_nat j) (seq i (length fails)).
Proof.
  revert i. induction fails as [|r fails IH]; intros i; [reflexivity |].
  cbn. rewrite IH. reflexivity.
Qed.

Lemma api_calls_backoff (tok : string) (i : nat) (fails : list response) :
  api_calls (backoff_trace self method url tok params data i fails)
  = map (fun r => (api_request self method url tok params data, Some r)) fails.
Proof.
  revert i. induction fails as [|r fails IH]; intros i; [reflexivity |].
  cbn. rewrite IH. reflexivity.
Qed.

End Backoff.

Lemma backoff_time_app (i : nat) (a b : list response) :
  backoff_time i (a ++ b) = backoff_time i a + backoff_time (i + length a) b.
Proof.
  revert i. induction a as [|r a IH]; intros i; cbn.
  - rewrite Nat.add_0_r. reflexivity.
  - rewrite IH. replace (S i + length a)%nat with (i + S (length a))%nat by lia. lia.
Qed.

(** C1 (amended).  With a cached valid token, fewer consecutive server errors
    than the retry budget (so at most 2 with the default budget of 3),
    followed by a 200: [_request] returns the parsed body of the 200 answer
    (or the raw-text fallback), it has slept [2^i] seconds after the failed
    attempt of index [i] (1s, then 2s), and it has made as many calls as
    there were failures, plus one. *)
Theorem C1_backoff_then_success (self : BusinessCentralClient.t)
    (method path_or_url : string) (params : option (list (string * val)))
    (data : option val) (is_full_url : bool) (w : world) (tok : string) (e : Z)
    (fails : list response) (ok : response) (pending : list net) :
  holds_token w tok e ->
  (length fails < BusinessCentralClient._retries self)%nat ->
  Forall server_error fails ->
  status_code ok = 200 ->
  api w = map Answers fails ++ Answers ok :: pending ->
  clock w + backoff_time 0 fails < e ->
  exists w' tr,
    BusinessCentralClient._request self method path_or_url params data is_full_url w
    = (Ok (success_value ok), w') /\
    trace w' = trace w ++ tr /\
    sleeps tr = map (fun i => 2 ^ Z.of_nat i) (seq 0 (length fails)) /\
    length (api_calls tr) = S (length fails) /\
    api w' = pending.
Proof.
  intros Htok Hlen Hfails Hok Hapi Hclock.
  unfold BusinessCentralClient._request. fold (resolved_url self path_or_url is_full_url).
  set (url := resolved_url self path_or_url is_full_url).
  replace (BusinessCentralClient._retries self)
    with (length fails + S (BusinessCentralClient._retries self - S (length fails)))%nat
    by lia.
  rewrite seq_app. cbn [seq].
  pose proof (loop_5xx self method url params data tok e fails 0%nat
                (length fails
                   :: seq (S (0 + length fails))
                        (BusinessCentralClient._retries self - S (length fails)))
                None w (Answers ok :: pending) Htok Hfails Hapi Hclock) as Hloop.
  erewrite loop_success in Hloop; [| exact Htok | exact Hok | reflexivity | exact Hclock].
  rewrite (bind_ok _ _ _ _ _ Hloop). run.
  do 2 eexists. split; [reflexivity |]. norm.
  split; [rewrite <- app_assoc; reflexivity |].
  split; [| split].
  - rewrite sleeps_app, sleeps_backoff. cbn. apply app_nil_r.
  - rewrite api_calls_app, api_calls_backoff, length_app, length_map. cbn. lia.
  - reflexivity.
Qed.

Lemma C1_witness :
  exists w' tr,
    BusinessCentralClient._request Examples.client "GET" "customers" None None false
      (Examples.world_with
         [Answers (Examples.error_500 "a"); Answers (Examples.error_500 "b");
          Answers Examples.ok_200])
    = (Ok (success_value Examples.ok_200), w') /\
    trace w' = [] ++ tr /\
    sleeps tr = [1; 2] /\
    length (api_calls tr) = 3%nat /\
    api w' = [].
Proof.
  apply (C1_backoff_then_success Examples.client "GET" "customers" None None false
           (Examples.world_with
              [Answers (Examples.error_500 "a"); Answers (Examples.error_500 "b");
               Answers Examples.ok_200])
           "tok" 3600000000
           [Examples.error_500 "a"; Examples.error_500 "b"] Examples.ok_200 []).
  - repeat split; try reflexivity; discriminate.
  - cbn. lia.
  - repeat constructor; cbn; lia.
  - reflexivity.
  - reflexivity.
  - reflexivity.
Defined.

(** C1 as stated fails for three failures: with the budget of 3 attempts,
    three 500 answers use it up, and the 200 answer that follows is never
    asked for. *)
Lemma C1_counterexample :
  fst (BusinessCentralClient._request Examples.client "GET" "customers" None None false
         Examples.world_three_failures) = Ok VNone /\
  fst (BusinessCentralClient._request Examples.client "GET" "customers" None None false
         Examples.world_three_failures) <> Ok (success_value Examples.ok_200) /\
  length (api_calls
            (trace (snd (BusinessCentralClient._request Examples.client "GET"
                           "customers" None None false
                           Examples.world_three_failures)))) = 3%nat /\
  sleeps (trace (snd (BusinessCentralClient._request Examples.client "GET" "customers"
                        None None false Examples.world_three_failures))) = [1; 2; 4] /\
  api (snd (BusinessCentralClient._request Examples.client "GET" "customers" None None
              false Examples.world_three_failures)) = [Answers Examples.ok_200].
Proof. vm_compute. repeat split; discriminate. Qed.

(** ** Request executor: authorization failures *)

Lemma loop_401 (self : BusinessCentralClient.t) (method url : string)
    (params : option (list (string * val))) (data : option val)
    (i : nat) (rest : list nat) (resp : option response) (w w1 : world)
    (tok : string) (r : response) (pending : list net) :
  Auth.get_token (snd (log DEBUG (BCRequest (i + 1) method url params data) w))
  = (Ok (Some tok), w1) ->
  tok <> "" ->
  api w1 = Answers r :: pending ->
  status_code r = 401 ->
  BusinessCentralClient.request_loop self method url params data (i :: rest) resp w
  = BusinessCentralClient.request_loop self method url params data rest (Some r)
      (mkWorld (config w1)
         (mkTM None (_expires (token_manager w1)) (_scope (token_manager w1)))
         (clock w1 + elapsed r) (token_endpoint w1) pending
         (trace w1 ++
            [EvApi (BusinessCentralClient.api_request self method url tok params data)
               (Some r);
             EvLog DEBUG (BCResponse (status_code r) (str_take 200 (text r)));
             EvInvalidate;
             EvLog WARNING TokenExpired])).
Proof.
  intros Hget Hne Hapi H401.
  cbn [BusinessCentralClient.request_loop].
  erewrite bind_ok by reflexivity.
  rewrite (bind_ok _ _ _ _ _ Hget).
  rewrite (truthy_str_some tok Hne). cbn [negb].
  run. rewrite Hapi. norm. rewrite H401. cbn [Z.eqb Pos.eqb orb]. norm.
  rewrite <- !app_assoc. reflexivity.
Qed.

(** C9.  In every execution of [_request], each 401 answer is followed, after
    the debug record of the response, by one invalidation of the cached token,
    and there is no other invalidation; so there are as many invalidations as
    401 answers, and at most as many calls as the retry budget.  An attempt
    answered by 401 clears [token_manager._token] and hands over to the
    remaining indices of the loop, whose next attempt starts by asking the
    token manager for a credential: it has used one index of the budget. *)
Theorem C9_invalidate_on_401 :
  (forall (self : BusinessCentralClient.t) (method path_or_url : string)
          (params : option (list (string * val))) (data : option val)
          (is_full_url : bool) (w : world),
      exists tr,
        trace (snd (BusinessCentralClient._request self method path_or_url params
                      data is_full_url w)) = trace w ++ tr /\
        paired tr /\
        count_invalidate tr = count_401 tr /\
        (length (api_calls tr) <= BusinessCentralClient._retries self)%nat) /\
  (forall (self : BusinessCentralClient.t) (method url : string)
          (params : option (list (string * val))) (data : option val)
          (i : nat) (rest : list nat) (resp : option response) (w w1 : world)
          (tok : string) (r : response) (pending : list net),
      Auth.get_token (snd (log DEBUG (BCRequest (i + 1) method url params data) w))
      = (Ok (Some tok), w1) ->
      tok <> "" ->
      api w1 = Answers r :: pending ->
      status_code r = 401 ->
      BusinessCentralClient.request_loop self method url params data (i :: rest) resp w
      = BusinessCentralClient.request_loop self method url params data rest (Some r)
          (mkWorld (config w1)
             (mkTM None (_expires (token_manager w1)) (_scope (token_manager w1)))
             (clock w1 + elapsed r) (token_endpoint w1) pending
             (trace w1 ++
                [EvApi (BusinessCentralClient.api_request self method url tok params
                          data) (Some r);
                 EvLog DEBUG (BCResponse (status_code r) (str_take 200 (text r)));
                 EvInvalidate;
                 EvLog WARNING TokenExpired]))).
Proof.
  split.
  - intros self method path_or_url params data is_full_url w.
    destruct (request_invariant self method path_or_url params data is_full_url w)
      as (_ & tr & Htr & _ & Hp & Hn).
    exists tr. repeat split; auto using paired_count.
  - apply loop_401.
Qed.

Lemma C9_witness :
  BusinessCentralClient.request_loop Examples.client "GET" "u" None None [0; 1; 2]%nat
    None (Examples.world_with [Answers Examples.unauthorized_401])
  = BusinessCentralClient.request_loop Examples.client "GET" "u" None None [1; 2]%nat
      (Some Examples.unauthorized_401)
      (mkWorld Examples.cfg
         (mkTM None (Some 3600000000) (_scope Auth.init)) 0 [] []
         [EvLog DEBUG (BCRequest 1 "GET" "u" None None);
          EvApi (BusinessCentralClient.api_request Examples.client "GET" "u" "tok"
                   None None) (Some Examples.unauthorized_401);
          EvLog DEBUG (BCResponse 401 "expired");
          EvInvalidate;
          EvLog WARNING TokenExpired]).
Proof.
  apply (proj2 C9_invalidate_on_401 Examples.client "GET" "u" None None 0%nat
           [1; 2]%nat None (Examples.world_with [Answers Examples.unauthorized_401])
           (mkWorld Examples.cfg Examples.tm_cached 0 [] [Answers Examples.unauthorized_401]
              [EvLog DEBUG (BCRequest 1 "GET" "u" None None)])
           "tok" Examples.unauthorized_401 []).
  - reflexivity.
  - discriminate.
  - reflexivity.
  - reflexivity.
Defined.

(** ** Domain operations on deliveries *)

Lemma snd_bind_lift {A B : Type} (m : M A) (f : A -> result B) (w : world) :
  snd ((m ≫= fun a => lift (f a)) w) = snd (m w).
Proof. run. destruct (m w) as [[a|e] w']; reflexivity. Qed.

Lemma custom_url_some (self : BusinessCentralClient.t) (base endpoint : string) :
  APIEndpointBuilder.base_url (BusinessCentralClient.url_builder self) = Some base ->
  BusinessCentralClient.custom_url self endpoint
  = Ok (delivery_root self base +:+ endpoint).
Proof.
  intros Hb. unfold BusinessCentralClient.custom_url, delivery_root.
  rewrite (build_custom_url_some _ _ _ _ _ _ _ Hb). rewrite !append_assoc. reflexivity.
Qed.

Lemma request_sent_as (self : BusinessCentralClient.t) (method url : string)
    (params : option (list (string * val))) (data : option val) (w : world) :
  extends (Forall (sent_as self method url params data)) w
    (snd (BusinessCentralClient._request self method url params data true w)).
Proof.
  destruct (request_invariant self method url params data true w) as [_ H].
  revert H. apply extends_weaken. intros tr (H & _). exact H.
Qed.


Lemma first_value_array (d : list (string * val)) (l : list val) :
  dict_get "value" d = Some (VList l) ->
  BusinessCentralClient.first_value (VDict d) = Ok (hd VNone l).
Proof.
  intros H. unfold BusinessCentralClient.first_value.
  destruct d as [|kv d]; [discriminate |]. cbn [truthy PyOps.contains PyOps.getitem].
  rewrite H. cbn. destruct l; reflexivity.
Qed.




Example delivery_root_example :
  delivery_root Examples.client
    "https://api.businesscentral.dynamics.com/v2.0/T/production/api/v2.0"
  = "https://api.businesscentral.dynamics.com/v2.0/T/production/api/techSphereDynamics/delivery/v1.0/companies(C)/".
Proof. reflexivity. Qed.

(** C8 as stated fails: the date clause is put in parentheses when it is
    joined to an earlier clause. *)
Lemma C8_counterexample :
  map (fun call => rq_params (fst call))
    (api_calls
       (trace
          (snd (BusinessCentralClient.get_deliveries Examples.client
                  (Some Examples.filters_delivered) 20
                  (Examples.world_with [Answers Examples.ok_200])))))
  = [Some [("$top", VInt 20);
           ("$filter", VStr "status eq 'Delivered' and (deliveryDate ge 2024-01-01)")]]
  /\ dict_get "$filter"
       (BusinessCentralClient.deliveries_params (Some Examples.filters_delivered) 20)
     <> Some (VStr "status eq 'Delivered' and deliveryDate ge 2024-01-01").
Proof. split; [vm_compute; reflexivity | vm_compute; discriminate]. Qed.

(** C8 (amended).  With the filters [status = Delivered] and
    [date_from = 2024-01-01], [get_deliveries] sends
    [$filter = status eq 'Delivered' and (deliveryDate ge 2024-01-01)], after
    [$top], in its one [GET] on [.../deliveries]. *)
Theorem C8_deliveries_filter (self : BusinessCentralClient.t) (base : string)
    (top : Z) (w : world) :
  APIEndpointBuilder.base_url (BusinessCentralClient.url_builder self) = Some base ->
  let url := delivery_root self base +:+ "deliveries" in
  let params :=
    [("$top", VInt top);
     ("$filter", VStr "status eq 'Delivered' and (deliveryDate ge 2024-01-01)")] in
  BusinessCentralClient.deliveries_params (Some Examples.filters_delivered) top = params /\
  BusinessCentralClient.get_deliveries self (Some Examples.filters_delivered) top w
  = (BusinessCentralClient._request self "GET" url (Some params) None true
       ≫= fun res => lift (BusinessCentralClient.value_or_empty res)) w /\
  extends (Forall (sent_as self "GET" url (Some params) None)) w
    (snd (BusinessCentralClient.get_deliveries self (Some Examples.filters_delivered)
            top w)).
Proof.
  intros Hb url params.
  assert (Hp : BusinessCentralClient.deliveries_params
                 (Some Examples.filters_delivered) top = params) by reflexivity.
  assert (E : BusinessCentralClient.get_deliveries self
                (Some Examples.filters_delivered) top w
              = (BusinessCentralClient._request self "GET" url (Some params) None true
                   ≫= fun res => lift (BusinessCentralClient.value_or_empty res)) w).
  { unfold BusinessCentralClient.get_deliveries. rewrite Hp.
    rewrite (custom_url_some self base _ Hb). reflexivity. }
  split; [exact Hp | split; [exact E |]].
  rewrite E, snd_bind_lift. apply request_sent_as.
Qed.

Lemma C8_witness :
  BusinessCentralClient.get_deliveries Examples.client
    (Some Examples.filters_delivered) 20 (Examples.world_with [])
  = (BusinessCentralClient._request Examples.client "GET"
       (delivery_root Examples.client
          "https://api.businesscentral.dynamics.com/v2.0/T/production/api/v2.0"
          +:+ "deliveries")
       (Some [("$top", VInt 20);
              ("$filter", VStr "status eq 'Delivered' and (deliveryDate ge 2024-01-01)")])
       None true
       ≫= fun res => lift (BusinessCentralClient.value_or_empty res))
      (Examples.world_with []).
Proof.
  apply (C8_deliveries_filter Examples.client
           "https://api.businesscentral.dynamics.com/v2.0/T/production/api/v2.0"
           20 (Examples.world_with []) eq_refl).
Defined.



(** ** Token manager: acquisition and validity *)

Lemma fetch_ok (w w' : world) (r : response) (rest : list net)
    (d : list (string * val)) (tok : string) (n : Z) :
  token_endpoint w = Answers r :: rest ->
  status_code r = 200 ->
  json r = Some (VDict d) ->
  default (VInt 3600) (dict_get "expires_in" d) = VInt n ->
  Auth._fetch w = (Ok (Some tok), w') ->
  w' = mkWorld (config w)
         (mkTM (Some tok) (Some (clock w + elapsed r + n * 1000000))
            (_scope (token_manager w)))
         (clock w + elapsed r) rest (api w) (trace w').
Proof.
  intros Hnet Hst Hj Hn. unfold Auth._fetch, Auth.resp_json. run.
  rewrite Hnet, Hst, Hj. cbn [Z.eqb Pos.eqb]. norm.
  unfold PyOps.getitem, PyOps.get_default. rewrite Hn.
  destruct (dict_get "access_token" d) as [a|]; [| intros [=]].
  destruct (PyOps.as_optional_str a) as [a0|]; [| intros [=]].
  unfold PyOps.timedelta_seconds. destruct (_ && _); [| intros [=]].
  unfold PyOps.datetime_add. destruct (_ && _); intros [= -> <-]. reflexivity.
Qed.

(** C5.  [_valid] answers [True] exactly when a token and an expiry are
    stored and the clock is strictly before the expiry.  A successful [_fetch]
    stores as expiry the instant [T] at which the token response was read plus
    [expires_in] seconds, 3600 if the response has no such field; so with a
    lifetime of 3600 the token is valid at [T + 3599s] and not at
    [T + 3601s]. *)
Theorem C5_validity_window (w w' : world) (r : response) (rest : list net)
    (d : list (string * val)) (tok : string) (n : Z) :
  token_endpoint w = Answers r :: rest ->
  status_code r = 200 ->
  json r = Some (VDict d) ->
  default (VInt 3600) (dict_get "expires_in" d) = VInt n ->
  Auth._fetch w = (Ok (Some tok), w') ->
  let T := clock w + elapsed r in
  (forall w0, (fst (Auth._valid w0) = Ok true) <->
     (exists t e, _token (token_manager w0) = Some t /\
                  _expires (token_manager w0) = Some e /\ clock w0 < e)) /\
  clock w' = T /\
  _token (token_manager w') = Some tok /\
  _expires (token_manager w') = Some (T + n * 1000000) /\
  (forall now, fst (Auth._valid (at_time now w'))
               = Ok (bool_decide (now < T + n * 1000000))) /\
  (n = 3600 ->
     fst (Auth._valid (at_time (T + 3599 * 1000000) w')) = Ok true /\
     fst (Auth._valid (at_time (T + 3601 * 1000000) w')) = Ok false).
Proof.
  intros Hnet Hst Hj Hn Hfetch T.
  pose proof (fetch_ok w w' r rest d tok n Hnet Hst Hj Hn Hfetch) as Hw'.
  assert (Hnow : forall now,
             fst (Auth._valid (at_time now w'))
             = Ok (bool_decide (now < T + n * 1000000))).
  { intros now. rewrite valid_value, Hw'. subst T. cbn. f_equal.
    destruct (Z.ltb_spec now (clock w + elapsed r + n * 1000000)).
    - rewrite bool_decide_eq_true_2; [reflexivity | assumption].
    - rewrite bool_decide_eq_false_2; [reflexivity | lia]. }
  split; [| split; [| split; [| split; [| split]]]].
  - intros w0. rewrite valid_value. split.
    + intros [= H]. destruct (_token (token_manager w0)) as [t|]; [| discriminate].
      destruct (_expires (token_manager w0)) as [e|]; [| discriminate].
      exists t, e. repeat split. apply Z.ltb_lt, H.
    + intros (t & e & -> & -> & H). apply Z.ltb_lt in H. rewrite H. reflexivity.
  - rewrite Hw'. reflexivity.
  - rewrite Hw'. reflexivity.
  - rewrite Hw'. reflexivity.
  - exact Hnow.
  - intros ->. rewrite !Hnow.
    rewrite bool_decide_eq_true_2 by lia. rewrite bool_decide_eq_false_2 by lia.
    split; reflexivity.
Qed.

Lemma C5_witness :
  _expires (token_manager (snd (Auth._fetch Examples.world_fetch)))
  = Some (1700000000000000 + 3600 * 1000000) /\
  fst (Auth._valid (at_time (1700000000000000 + 3599 * 1000000)
                      (snd (Auth._fetch Examples.world_fetch)))) = Ok true /\
  fst (Auth._valid (at_time (1700000000000000 + 3601 * 1000000)
                      (snd (Auth._fetch Examples.world_fetch)))) = Ok false.
Proof.
  destruct (C5_validity_window Examples.world_fetch
              (snd (Auth._fetch Examples.world_fetch)) (Examples.token_200 3600) []
              [("access_token", VStr "tok2"); ("expires_in", VInt 3600)] "tok2" 3600
              eq_refl eq_refl eq_refl eq_refl eq_refl)
    as (_ & _ & _ & He & _ & Hw).
  destruct (Hw eq_refl) as [H1 H2].
  split; [exact He | split; [exact H1 | exact H2]].
Defined.

Example fetch_default_lifetime :
  _expires
    (token_manager
       (snd (Auth._fetch
               (mkWorld Examples.cfg Auth.init 0
                  [Answers (mkResponse 200 "{}"
                              (Some (VDict [("access_token", VStr "tok2")])) 0)]
                  [] []))))
  = Some (3600 * 1000000).
Proof. reflexivity. Qed.

Example fetch_rejected :
  Auth._fetch (mkWorld Examples.cfg Auth.init 0
                 [Answers (mkResponse 400 "invalid_client" None 0)] [] [])
  = (Ok None,
     mkWorld Examples.cfg Auth.init 0 [] []
       [EvTokenPost
          (mkRequest "POST" "https://login.microsoftonline.com/T/oauth2/v2.0/token"
             [("Content-Type", "application/x-www-form-urlencoded")] None
             (Some [("grant_type", Some "client_credentials");
                    ("client_id", Some "app"); ("client_secret", Some "secret");
                    ("scope", Some "https://api.businesscentral.dynamics.com/.default")])
             None 30)
          (Some (mkResponse 400 "invalid_client" None 0));
        EvPrint 400]).
Proof. reflexivity. Qed.

(** ** Exceptions of the transport *)

Lemma fetch_raises (w : world) (d : Z) (rest : list net) :
  token_endpoint w = Fails d :: rest ->
  fst (Auth._fetch w) = Raise NetworkError.
Proof. intros H. unfold Auth._fetch. run. rewrite H. reflexivity. Qed.

Lemma request_raises (self : BusinessCentralClient.t) (method path_or_url : string)
    (params : option (list (string * val))) (data : option val) (is_full_url : bool)
    (w : world) (tok : string) (e d : Z) (rest : list net) :
  holds_token w tok e ->
  clock w < e ->
  (0 < BusinessCentralClient._retries self)%nat ->
  api w = Fails d :: rest ->
  fst (BusinessCentralClient._request self method path_or_url params data is_full_url w)
  = Raise NetworkError.
Proof.
  intros (Hcfg & Ht & Hne & Hex) Hclock Hn Hapi.
  unfold BusinessCentralClient._request.
  destruct (BusinessCentralClient._retries self) as [|n]; [lia |].
  cbn [seq BusinessCentralClient.request_loop].
  set (url := if is_full_url then _ else _).
  set (w1 := snd (log DEBUG (BCRequest (0 + 1) method url params data) w)).
  erewrite bind_raise; [reflexivity |].
  rewrite (bind_ok _ _ w w1 tt) by reflexivity.
  rewrite (bind_ok _ _ w1 w1 (Some tok))
    by (apply (get_token_cached w1 tok e); cbn; auto).
  rewrite (truthy_str_some tok Hne). cbn [negb].
  subst w1. run. rewrite Hapi. reflexivity.
Qed.

(** C3 fails on the code: neither [_fetch] nor [_request] catches what the
    HTTP call raises.  A timeout at the token endpoint comes out of
    [get_token] as an exception, and a timeout of Business Central comes out
    of [_request] as an exception, on its first attempt. *)
Theorem C3_transport_exception_escapes :
  fst (Auth.get_token Examples.world_token_timeout) = Raise NetworkError /\
  fst (BusinessCentralClient.get_customers Examples.client 20
         Examples.world_token_timeout) = Raise NetworkError /\
  fst (BusinessCentralClient._request Examples.client "GET" "customers" None None false
         (Examples.world_with [Fails 30000000])) = Raise NetworkError /\
  length (api_calls
            (trace (snd (BusinessCentralClient._request Examples.client "GET"
                           "customers" None None false
                           (Examples.world_with [Fails 30000000]))))) = 1%nat.
Proof. vm_compute. repeat split. Qed.

(** ** Mock data mode *)

Lemma request_unconfigured (self : BusinessCentralClient.t) (method path_or_url : string)
    (params : option (list (string * val))) (data : option val) (is_full_url : bool)
    (w : world) :
  configured (config w) = false ->
  (0 < BusinessCentralClient._retries self)%nat ->
  BusinessCentralClient._request self method path_or_url params data is_full_url w
  = (Ok VNone,
     mkWorld (config w) (token_manager w) (clock w) (token_endpoint w) (api w)
       (trace w ++
          [EvLog DEBUG (BCRequest 1 method (resolved_url self path_or_url is_full_url)
                          params data);
           EvLog WARNING CredentialsNotConfigured])).
Proof.
  intros Hcfg Hn. unfold BusinessCentralClient._request.
  fold (resolved_url self path_or_url is_full_url).
  destruct (BusinessCentralClient._retries self) as [|n]; [lia |].
  cbn [seq BusinessCentralClient.request_loop].
  set (url := resolved_url self path_or_url is_full_url).
  set (w1 := snd (log DEBUG (BCRequest (0 + 1) method url params data) w)).
  erewrite bind_ok.
  2: { rewrite (bind_ok _ _ w w1 tt) by reflexivity.
       rewrite (bind_ok _ _ w1 w1 None) by (apply get_token_unconfigured; exact Hcfg).
       cbn [truthy_str negb]. subst w1. run. reflexivity. }
  run. rewrite <- app_assoc. reflexivity.
Qed.

Lemma quiet_no_calls (tr : list event) :
  Forall quiet tr -> api_calls tr = [] /\ token_posts tr = [].
Proof.
  induction 1 as [|e tr He Htr IH]; [split; reflexivity |].
  destruct e; cbn in *; try contradiction; exact IH.
Qed.

Example get_customers_mock :
  BusinessCentralClient.get_customers Examples.client_mock 20 Examples.world_mock
  = (Ok (VList []),
     mkWorld Examples.cfg_mock Auth.init 0 [] []
       [EvLog DEBUG (BCRequest 1 "GET" "None/companies(None)/customers"
                       (Some [("$top", VInt 20)]) None);
        EvLog WARNING CredentialsNotConfigured;
        EvLog ERROR CustomersFailed]).
Proof. reflexivity. Qed.

(** Without a client identity the operations on the standard API return an
    empty list or [None], and neither the token endpoint nor Business Central
    is called. *)
Lemma standard_operations_unconfigured (self : BusinessCentralClient.t) (w : world)
    (top : Z) (key : string) (code : option string) (data : val) :
  configured (config w) = false ->
  (0 < BusinessCentralClient._retries self)%nat ->
  let quiet_run (out : result val * world) (v : val) :=
    fst out = Ok v /\ token_endpoint (snd out) = token_endpoint w /\
    api (snd out) = api w /\
    exists tr, trace (snd out) = trace w ++ tr /\ Forall quiet tr in
  quiet_run (BusinessCentralClient.get_customers self top w) (VList []) /\
  quiet_run (BusinessCentralClient.get_customer self key w) VNone /\
  quiet_run (BusinessCentralClient.get_customer_by_id self key w) VNone /\
  quiet_run (BusinessCentralClient.get_items self top w) (VList []) /\
  quiet_run (BusinessCentralClient.get_item_by_number self key w) VNone /\
  quiet_run (BusinessCentralClient.get_orders self top w) (VList []) /\
  quiet_run (BusinessCentralClient.get_sales_orders self key top w) (VList []) /\
  quiet_run (BusinessCentralClient.create_customer self data w) VNone /\
  quiet_run (BusinessCentralClient.get_currency_exchange_rates self code top w)
    (VList []).
Proof.
  intros Hcfg Hn quiet_run. subst quiet_run. cbv beta.
  unfold BusinessCentralClient.get_customers, BusinessCentralClient.get_customer_by_id,
    BusinessCentralClient.get_customer, BusinessCentralClient.get_items,
    BusinessCentralClient.get_item_by_number, BusinessCentralClient.get_orders,
    BusinessCentralClient.get_sales_orders, BusinessCentralClient.create_customer,
    BusinessCentralClient.get_currency_exchange_rates.
  repeat split;
    repeat (erewrite bind_ok;
            [| apply request_unconfigured; [exact Hcfg | exact Hn]];
            cbn [truthy]);
    try rewrite request_unconfigured by assumption;
    run; try reflexivity;
    (eexists; split; [rewrite <- ?app_assoc; reflexivity | repeat constructor]).
Qed.

(** The base URL is derived from the tenant id alone: an environment without
    one leaves the endpoint builder without a base URL. *)
Lemma load_without_tenant (env : gmap string string) :
  truthy_str (env !! "AZURE_TENANT_ID") = false ->
  APIEndpointBuilder.base_url
    (BusinessCentralClient.url_builder (BusinessCentralClient.init (Config.load env)))
  = None.
Proof.
  intros H. unfold BusinessCentralClient.init, Config.load, Config._load_bc,
    Config._load_azure, Config.set_authority, Config.set_base_url.
  cbn. rewrite H. cbn. rewrite H. reflexivity.
Qed.

Lemma custom_url_none (self : BusinessCentralClient.t) (endpoint : string) :
  APIEndpointBuilder.base_url (BusinessCentralClient.url_builder self) = None ->
  BusinessCentralClient.custom_url self endpoint = Raise AttributeError.
Proof.
  intros H. unfold BusinessCentralClient.custom_url,
    APIEndpointBuilder.build_custom_url. rewrite H. reflexivity.
Qed.

(** C4 fails on the code when the tenant id is among the missing identity
    fields: [config.bc.base_url] is then [None], and every operation on the
    custom delivery API raises [AttributeError] in [build_custom_url] before
    it reaches [_request]. *)
Theorem C4_custom_operations_raise_in_mock_mode (w : world)
    (filters : option (gmap string string)) (top : Z)
    (delivery_id status notes date_from date_to : string)
    (driver_id warehouse_id : option string) (route_data : val) :
  configured Examples.cfg_mock = false /\
  BusinessCentralClient.get_deliveries Examples.client_mock filters top w
  = (Raise AttributeError, w) /\
  BusinessCentralClient.get_delivery Examples.client_mock delivery_id w
  = (Raise AttributeError, w) /\
  BusinessCentralClient.update_delivery_status Examples.client_mock delivery_id status
    notes w = (Raise AttributeError, w) /\
  BusinessCentralClient.get_delivery_routes Examples.client_mock date_from date_to
    driver_id w = (Raise AttributeError, w) /\
  BusinessCentralClient.optimize_route Examples.client_mock route_data w
  = (Raise AttributeError, w) /\
  BusinessCentralClient.get_inventory_status Examples.client_mock warehouse_id w
  = (Raise AttributeError, w).
Proof.
  repeat split.
  unfold BusinessCentralClient.get_delivery.
  destruct (_ && _); reflexivity.
Qed.

(** * Further properties *)

(** ** Token manager *)

Lemma token_posts_app (a b : list event) :
  token_posts (a ++ b) = token_posts a ++ token_posts b.
Proof.
  induction a as [|e a IH]; [reflexivity |].
  destruct e; cbn; rewrite IH; reflexivity.
Qed.

Lemma valid_false_fetch (w : world) :
  configured (config w) = true ->
  fst (Auth._valid w) = Ok false ->
  Auth.get_token w = Auth._fetch w.
Proof.
  intros Hc Hv. rewrite (get_token_configured w Hc). rewrite valid_value in Hv.
  destruct (_token (token_manager w)); [| reflexivity].
  destruct (_expires (token_manager w)); [| reflexivity].
  injection Hv as ->. reflexivity.
Qed.

Lemma fetch_posts_once (w : world) :
  token_posts (trace (snd (Auth._fetch w)))
  = token_posts (trace w) ++ [(token_request w, next_token_outcome w)] /\
  api_calls (trace (snd (Auth._fetch w))) = api_calls (trace w).
Proof.
  unfold Auth._fetch, token_request, next_token_outcome. run.
  destruct (token_endpoint w) as [|[r|d] rest]; norm.
  - rewrite token_posts_app, api_calls_app, app_nil_r. split; reflexivity.
  - destruct (status_code r =? 200); norm.
    + repeat (case_match; norm);
        rewrite token_posts_app, api_calls_app, app_nil_r; split; reflexivity.
    + rewrite !token_posts_app, !api_calls_app, !app_nil_r. split; reflexivity.
  - rewrite token_posts_app, api_calls_app, app_nil_r. split; reflexivity.
Qed.

(** X1.  While a token is cached and the clock is before its expiry,
    [get_token] returns it and does nothing else: no call to the token
    endpoint, no record, no change of state.  From the instant of expiry on
    it acquires a new one. *)
Theorem X1_get_token_cache_window (w : world) (tok : string) (e : Z) :
  configured (config w) = true ->
  _token (token_manager w) = Some tok ->
  _expires (token_manager w) = Some e ->
  (clock w < e -> Auth.get_token w = (Ok (Some tok), w)) /\
  (e <= clock w -> Auth.get_token w = Auth._fetch w).
Proof.
  intros Hc Ht He. split; intros H.
  - apply (get_token_cached w tok e); assumption.
  - rewrite (get_token_configured w Hc), Ht, He.
    replace (clock w <? e) with false by lia. reflexivity.
Qed.

Lemma X1_witness :
  Auth.get_token (Examples.world_with [])
  = (Ok (Some "tok"), Examples.world_with []) /\
  Auth.get_token (at_time 3600000000 (Examples.world_with []))
  = Auth._fetch (at_time 3600000000 (Examples.world_with [])).
Proof.
  split.
  - apply (X1_get_token_cache_window (Examples.world_with []) "tok" 3600000000
             eq_refl eq_refl eq_refl). reflexivity.
  - apply (X1_get_token_cache_window (at_time 3600000000 (Examples.world_with []))
             "tok" 3600000000 eq_refl eq_refl eq_refl). cbn. lia.
Defined.

(** X2.  With the identity configured and no valid token (none stored, for
    instance after an invalidation, or expired), [get_token] posts once to
    [{authority}/oauth2/v2.0/token] the form with [grant_type],
    [client_id], [client_secret] and [scope], with a timeout of 30 seconds,
    and calls Business Central not at all. *)
Theorem X2_get_token_posts_once (w : world) :
  configured (config w) = true ->
  fst (Auth._valid w) = Ok false ->
  token_posts (trace (snd (Auth.get_token w)))
  = token_posts (trace w) ++ [(token_request w, next_token_outcome w)] /\
  api_calls (trace (snd (Auth.get_token w))) = api_calls (trace w).
Proof.
  intros Hc Hv. rewrite (valid_false_fetch w Hc Hv). apply fetch_posts_once.
Qed.

Lemma X2_witness :
  token_posts (trace (snd (Auth.get_token Examples.world_fetch)))
  = [(mkRequest "POST" "https://login.microsoftonline.com/T/oauth2/v2.0/token"
        [("Content-Type", "application/x-www-form-urlencoded")] None
        (Some [("grant_type", Some "client_credentials");
               ("client_id", Some "app"); ("client_secret", Some "secret");
               ("scope", Some "https://api.businesscentral.dynamics.com/.default")])
        None 30,
      Some (Examples.token_200 3600))] /\
  api_calls (trace (snd (Auth.get_token Examples.world_fetch))) = [].
Proof.
  apply (X2_get_token_posts_once Examples.world_fetch); reflexivity.
Defined.

Lemma fetch_refused (w : world) (r : response) (rest : list net) :
  token_endpoint w = Answers r :: rest ->
  status_code r <> 200 ->
  Auth._fetch w
  = (Ok None,
     mkWorld (config w) (token_manager w) (clock w + elapsed r) rest (api w)
       (trace w ++ [EvTokenPost (token_request w) (Some r);
                    EvPrint (status_code r)])).
Proof.
  intros Hnet Hst. unfold Auth._fetch, token_request. run. rewrite Hnet. norm.
  replace (status_code r =? 200) with false by lia. norm.
  rewrite <- app_assoc. reflexivity.
Qed.

(** X3.  When the token endpoint answers with a status other than 200,
    [_fetch] returns [None], prints the status, and leaves the token manager
    as it was: a token stored earlier is neither replaced nor cleared. *)
Theorem X3_fetch_rejected_keeps_state (w : world) (r : response) (rest : list net) :
  token_endpoint w = Answers r :: rest ->
  status_code r <> 200 ->
  Auth._fetch w
  = (Ok None,
     mkWorld (config w) (token_manager w) (clock w + elapsed r) rest (api w)
       (trace w ++ [EvTokenPost (token_request w) (Some r);
                    EvPrint (status_code r)])).
Proof. apply fetch_refused. Qed.

Lemma X3_witness :
  Auth._fetch (mkWorld Examples.cfg Examples.tm_cached 3600000000
                 [Answers (mkResponse 503 "busy" None 0)] [] [])
  = (Ok None,
     mkWorld Examples.cfg Examples.tm_cached 3600000000 [] []
       [EvTokenPost
          (token_request (mkWorld Examples.cfg Examples.tm_cached 3600000000
                            [Answers (mkResponse 503 "busy" None 0)] [] []))
          (Some (mkResponse 503 "busy" None 0));
        EvPrint 503]).
Proof.
  apply (X3_fetch_rejected_keeps_state
           (mkWorld Examples.cfg Examples.tm_cached 3600000000
              [Answers (mkResponse 503 "busy" None 0)] [] [])
           (mkResponse 503 "busy" None 0) []); [reflexivity | cbn; lia].
Defined.

(** X4.  A 200 answer of the token endpoint without a usable token makes
    [_fetch] raise, with the token manager as it was: [ValueError] when the
    body is not JSON, [KeyError] when the JSON object has no [access_token],
    [TypeError] when the JSON value is not an object. *)
Theorem X4_fetch_malformed_raises (w : world) (r : response) (rest : list net) :
  token_endpoint w = Answers r :: rest ->
  status_code r = 200 ->
  match json r with
  | Some (VDict d) => dict_get "access_token" d = None
  | _ => True
  end ->
  fst (Auth._fetch w)
  = Raise (match json r with
           | None => ValueError
           | Some (VDict _) => KeyError
           | Some _ => TypeError
           end) /\
  token_manager (snd (Auth._fetch w)) = token_manager w.
Proof.
  intros Hnet Hst Hj. unfold Auth._fetch, Auth.resp_json. run.
  rewrite Hnet, Hst. cbn [Z.eqb Pos.eqb]. norm.
  destruct (json r) as [[| | | | |d]|]; norm; try (split; reflexivity).
  unfold PyOps.getitem. rewrite Hj. norm. split; reflexivity.
Qed.

Lemma X4_witness :
  fst (Auth._fetch (mkWorld Examples.cfg Examples.tm_cached 3600000000
                      [Answers (mkResponse 200 "<html>" None 0)] [] []))
  = Raise ValueError /\
  token_manager
    (snd (Auth._fetch (mkWorld Examples.cfg Examples.tm_cached 3600000000
                         [Answers (mkResponse 200 "<html>" None 0)] [] [])))
  = Examples.tm_cached.
Proof.
  apply (X4_fetch_malformed_raises
           (mkWorld Examples.cfg Examples.tm_cached 3600000000
              [Answers (mkResponse 200 "<html>" None 0)] [] [])
           (mkResponse 200 "<html>" None 0) []); [reflexivity | reflexivity | exact I].
Defined.

(** X5.  [_fetch] stores the token before it computes the expiry.  When the
    token response carries an [expires_in] that [timedelta] refuses (not a
    number, or out of range), [_fetch] raises with the new token stored and
    the expiry of the previous one kept. *)
Theorem X5_fetch_partial_update (w : world) (r : response) (rest : list net)
    (d : list (string * val)) (tok : string) (e : exn) :
  token_endpoint w = Answers r :: rest ->
  status_code r = 200 ->
  json r = Some (VDict d) ->
  dict_get "access_token" d = Some (VStr tok) ->
  PyOps.timedelta_seconds (default (VInt 3600) (dict_get "expires_in" d)) = Raise e ->
  fst (Auth._fetch w) = Raise e /\
  token_manager (snd (Auth._fetch w))
  = mkTM (Some tok) (_expires (token_manager w)) (_scope (token_manager w)).
Proof.
  intros Hnet Hst Hj Htok Hdelta. unfold Auth._fetch, Auth.resp_json. run.
  rewrite Hnet, Hst, Hj. cbn [Z.eqb Pos.eqb]. norm.
  unfold PyOps.getitem, PyOps.get_default. rewrite Htok. norm.
  rewrite Hdelta. norm. split; reflexivity.
Qed.

Lemma X5_witness :
  fst (Auth._fetch
         (mkWorld Examples.cfg Examples.tm_cached 3600000000
            [Answers (mkResponse 200 "{}"
                        (Some (VDict [("access_token", VStr "new");
                                      ("expires_in", VStr "3600")])) 0)] [] []))
  = Raise TypeError /\
  token_manager
    (snd (Auth._fetch
            (mkWorld Examples.cfg Examples.tm_cached 3600000000
               [Answers (mkResponse 200 "{}"
                           (Some (VDict [("access_token", VStr "new");
                                         ("expires_in", VStr "3600")])) 0)] [] [])))
  = mkTM (Some "new") (Some 3600000000) (_scope Auth.init).
Proof.
  apply (X5_fetch_partial_update
           (mkWorld Examples.cfg Examples.tm_cached 3600000000
              [Answers (mkResponse 200 "{}"
                          (Some (VDict [("access_token", VStr "new");
                                        ("expires_in", VStr "3600")])) 0)] [] [])
           (mkResponse 200 "{}"
              (Some (VDict [("access_token", VStr "new");
                            ("expires_in", VStr "3600")])) 0)
           [] [("access_token", VStr "new"); ("expires_in", VStr "3600")] "new"
           TypeError); reflexivity.
Defined.

(** ** Request executor: single attempts *)

Section Attempts.
Import BusinessCentralClient.
Variable self : BusinessCentralClient.t.
Variables method url : string.
Variable params : option (list (string * val)).
Variable data : option val.

(** An attempt whose answer is neither a 401 nor a server error, the token
    manager having supplied [tok]. *)
Lemma loop_final_with (i : nat) (more : list nat) (resp : option response)
    (w w1 : world) (tok : string) (r : response) (pending : list net) :
  Auth.get_token (snd (log DEBUG (BCRequest (i + 1) method url params data) w))
  = (Ok (Some tok), w1) ->
  tok <> "" ->
  api w1 = Answers r :: pending ->
  status_code r <> 401 ->
  status_code r < 500 ->
  request_loop self method url params data (i :: more) resp w
  = (Ok (final_flow r),
     mkWorld (config w1) (token_manager w1) (clock w1 + elapsed r)
       (token_endpoint w1) pending
       (trace w1 ++
          [EvApi (api_request self method url tok params data) (Some r);
           EvLog DEBUG (BCResponse (status_code r) (str_take 200 (text r)))])).
Proof.
  intros Hget Hne Hapi H401 H5xx.
  cbn [request_loop].
  erewrite bind_ok by reflexivity.
  rewrite (bind_ok _ _ _ _ _ Hget).
  rewrite (truthy_str_some tok Hne). cbn [negb].
  run. rewrite Hapi. norm. unfold final_flow, success_value.
  destruct ((status_code r =? 200) || (status_code r =? 201)
            || (status_code r =? 204)); norm.
  - destruct (status_code r =? 204); [| destruct (json r)]; norm;
      rewrite <- app_assoc; reflexivity.
  - replace (status_code r =? 401) with false by lia.
    replace (500 <=? status_code r) with false by lia.
    norm. rewrite <- app_assoc. reflexivity.
Qed.

(** An attempt for which the token manager has no token. *)
Lemma loop_no_token_with (i : nat) (more : list nat) (resp : option response)
    (w w1 : world) (token : option string) :
  Auth.get_token (snd (log DEBUG (BCRequest (i + 1) method url params data) w))
  = (Ok token, w1) ->
  truthy_str token = false ->
  request_loop self method url params data (i :: more) resp w
  = (Ok (Return VNone),
     mkWorld (config w1) (token_manager w1) (clock w1) (token_endpoint w1) (api w1)
       (trace w1 ++ [EvLog WARNING CredentialsNotConfigured])).
Proof.
  intros Hget Hfalsy. cbn [request_loop].
  erewrite bind_ok by reflexivity.
  rewrite (bind_ok _ _ _ _ _ Hget). rewrite Hfalsy. cbn [negb]. run. reflexivity.
Qed.

End Attempts.

Lemma request_of_loop (self : BusinessCentralClient.t) (method path_or_url : string)
    (params : option (list (string * val))) (data : option val) (is_full_url : bool)
    (w w1 : world) (out : BusinessCentralClient.flow) :
  BusinessCentralClient.request_loop self method
    (resolved_url self path_or_url is_full_url) params data
    (seq 0 (BusinessCentralClient._retries self)) None w = (Ok out, w1) ->
  BusinessCentralClient._request self method path_or_url params data is_full_url w
  = (Ok (fst (finish method path_or_url out)),
     mkWorld (config w1) (token_manager w1) (clock w1) (token_endpoint w1) (api w1)
       (trace w1 ++ snd (finish method path_or_url out))).
Proof.
  intros H. unfold BusinessCentralClient._request.
  fold (resolved_url self path_or_url is_full_url).
  rewrite (bind_ok _ _ _ _ _ H).
  destruct out as [v|[resp|]]; run; cbn [finish fst snd];
    rewrite ?app_nil_r; destruct w1; reflexivity.
Qed.

Lemma cached_after_log (w : world) (tok : string) (e : Z) (rec : log_record) :
  holds_token w tok e ->
  clock w < e ->
  Auth.get_token (snd (log DEBUG rec w))
  = (Ok (Some tok), snd (log DEBUG rec w)).
Proof.
  intros (Hc & Ht & _ & He) Hclock.
  apply (get_token_cached _ tok e); cbn; assumption.
Qed.

Lemma sent_as_api_calls (self : BusinessCentralClient.t) (method url : string)
    (params : option (list (string * val))) (data : option val) (tr : list event) :
  Forall (sent_as self method url params data) tr ->
  Forall (fun call =>
            exists token,
              fst call = BusinessCentralClient.api_request self method url token
                           params data)
    (api_calls tr).
Proof.
  induction 1 as [|e tr He Htr IH]; [constructor |].
  destruct e; cbn [api_calls]; try exact IH.
  constructor; [exact He | exact IH].
Qed.

(** X6.  In every execution of [_request], whatever the network and the token
    manager do, each call sent to Business Central has the method, the
    query parameters and the JSON body that were given, the URL given (or
    [{base}/companies({company})/{path}] for a relative path), no form, the
    client's timeout, and exactly the headers [Authorization: Bearer ...] and
    [Accept: application/json]; there are at most [_retries] such calls. *)
Theorem X6_request_calls_shape (self : BusinessCentralClient.t)
    (method path_or_url : string) (params : option (list (string * val)))
    (data : option val) (is_full_url : bool) (w : world) :
  exists tr,
    trace (snd (BusinessCentralClient._request self method path_or_url params data
                  is_full_url w)) = trace w ++ tr /\
    (length (api_calls tr) <= BusinessCentralClient._retries self)%nat /\
    Forall (fun call =>
              rq_method (fst call) = method /\
              rq_url (fst call)
              = (if is_full_url then path_or_url
                 else fstr (APIEndpointBuilder.base_url
                              (BusinessCentralClient.url_builder self))
                      +:+ "/companies("
                      +:+ fstr (APIEndpointBuilder.company_id
                                  (BusinessCentralClient.url_builder self))
                      +:+ ")/" +:+ path_or_url) /\
              rq_params (fst call) = params /\
              rq_json (fst call) = data /\
              rq_form (fst call) = None /\
              rq_timeout (fst call) = BusinessCentralClient._timeout self /\
              exists token,
                rq_headers (fst call)
                = [("Authorization", "Bearer " +:+ token);
                   ("Accept", "application/json")])
      (api_calls tr).
Proof.
  destruct (request_invariant self method path_or_url params data is_full_url w)
    as (_ & tr & Htr & Hsent & _ & Hn).
  exists tr. split; [exact Htr | split; [exact Hn |]].
  eapply Forall_impl; [apply sent_as_api_calls, Hsent |].
  intros [rq res] [token Hrq]. cbn [fst] in *. subst rq.
  unfold resolved_url, APIEndpointBuilder.build_standard_url.
  destruct is_full_url; cbn; repeat split; eauto.
Qed.

Lemma fetch_success (w : world) (r : response) (rest : list net)
    (d : list (string * val)) (tok : string) (delta e : Z) :
  token_endpoint w = Answers r :: rest ->
  status_code r = 200 ->
  json r = Some (VDict d) ->
  dict_get "access_token" d = Some (VStr tok) ->
  PyOps.timedelta_seconds (default (VInt 3600) (dict_get "expires_in" d)) = Ok delta ->
  PyOps.datetime_add (clock w + elapsed r) delta = Ok e ->
  Auth._fetch w
  = (Ok (Some tok),
     mkWorld (config w) (mkTM (Some tok) (Some e) (_scope (token_manager w)))
       (clock w + elapsed r) rest (api w)
       (trace w ++ [EvTokenPost (token_request w) (Some r)])).
Proof.
  intros Hnet Hst Hj Htok Hdelta Hadd. unfold Auth._fetch, Auth.resp_json, token_request.
  run. rewrite Hnet, Hst, Hj. cbn [Z.eqb Pos.eqb]. norm.
  unfold PyOps.getitem, PyOps.get_default. rewrite Htok. norm.
  rewrite Hdelta. norm. rewrite Hadd. norm. reflexivity.
Qed.

Lemma request_first_answer (self : BusinessCentralClient.t)
    (method path_or_url : string) (params : option (list (string * val)))
    (data : option val) (is_full_url : bool) (w : world) (tok : string) (e : Z)
    (r : response) (pending : list net) :
  (0 < BusinessCentralClient._retries self)%nat ->
  holds_token w tok e ->
  clock w < e ->
  api w = Answers r :: pending ->
  status_code r <> 401 ->
  status_code r < 500 ->
  BusinessCentralClient._request self method path_or_url params data is_full_url w
  = (Ok (fst (finish method path_or_url (final_flow r))),
     mkWorld (config w) (token_manager w) (clock w + elapsed r) (token_endpoint w)
       pending
       (trace w ++
          [EvLog DEBUG (BCRequest 1 method (resolved_url self path_or_url is_full_url)
                          params data);
           EvApi (BusinessCentralClient.api_request self method
                    (resolved_url self path_or_url is_full_url) tok params data)
             (Some r);
           EvLog DEBUG (BCResponse (status_code r) (str_take 200 (text r)))]
          ++ snd (finish method path_or_url (final_flow r)))).
Proof.
  intros Hn Htok Hclock Hapi H401 H5xx.
  destruct (BusinessCentralClient._retries self) as [|n] eqn:En; [lia |].
  pose proof (loop_final_with self method (resolved_url self path_or_url is_full_url)
                params data 0 (seq 1 n) None w _ tok r pending
                (cached_after_log w tok e _ Htok Hclock)
                (proj1 (proj2 (proj2 Htok))) Hapi H401 H5xx) as Hloop.
  change (0%nat :: seq 1 n) with (seq 0 (S n)) in Hloop. rewrite <- En in Hloop.
  rewrite (request_of_loop _ _ _ _ _ _ _ _ _ Hloop). run.
  rewrite <- !app_assoc. reflexivity.
Qed.

(** X7.  With a valid cached token, a first answer that is neither a 401 nor
    a server error ends [_request] after that one call, without sleeping and
    without touching the token manager: 204 gives [{"success": True}] whatever
    the body, 200 and 201 give the parsed body (or the raw-text fallback), and
    any other status, other 2xx and 3xx included, gives [None] after an error
    record with the status and the first 200 characters of the body. *)
Theorem X7_first_answer_decides (self : BusinessCentralClient.t)
    (method path_or_url : string) (params : option (list (string * val)))
    (data : option val) (is_full_url : bool) (w : world) (tok : string) (e : Z)
    (r : response) (pending : list net) :
  (0 < BusinessCentralClient._retries self)%nat ->
  holds_token w tok e ->
  clock w < e ->
  api w = Answers r :: pending ->
  status_code r <> 401 ->
  status_code r < 500 ->
  exists v w' tr,
    BusinessCentralClient._request self method path_or_url params data is_full_url w
    = (Ok v, w') /\
    trace w' = trace w ++ tr /\
    map snd (api_calls tr) = [Some r] /\
    sleeps tr = [] /\
    api w' = pending /\
    token_manager w' = token_manager w /\
    (status_code r = 204 -> v = VDict [("success", VBool true)]) /\
    (status_code r = 200 \/ status_code r = 201 -> v = success_value r) /\
    (status_code r <> 200 -> status_code r <> 201 -> status_code r <> 204 ->
       v = VNone /\
       last tr = Some (EvLog ERROR (BCApiError method path_or_url (status_code r)
                                      (str_take 200 (text r))))).
Proof.
  intros Hn Htok Hclock Hapi H401 H5xx.
  rewrite (request_first_answer self method path_or_url params data is_full_url w tok e
             r pending Hn Htok Hclock Hapi H401 H5xx).
  do 3 eexists. split; [reflexivity |]. norm.
  split; [reflexivity |].
  unfold final_flow.
  destruct (Z.eq_dec (status_code r) 204) as [E204|N204].
  { rewrite E204. cbn. repeat split; try reflexivity; intros; lia. }
  destruct (Z.eq_dec (status_code r) 200) as [E200|N200].
  { rewrite E200. cbn. repeat split; try reflexivity; intros; lia. }
  destruct (Z.eq_dec (status_code r) 201) as [E201|N201].
  { rewrite E201. cbn. repeat split; try reflexivity; intros; lia. }
  replace (status_code r =? 200) with false by lia.
  replace (status_code r =? 201) with false by lia.
  replace (status_code r =? 204) with false by lia.
  cbn. repeat split; try reflexivity; intros; lia.
Qed.

Lemma X7_witness :
  exists v w' tr,
    BusinessCentralClient._request Examples.client "GET" "customers(x)" None None false
      (Examples.world_with [Answers (mkResponse 404 "no such customer" None 0)])
    = (Ok v, w') /\
    trace w' = [] ++ tr /\
    map snd (api_calls tr) = [Some (mkResponse 404 "no such customer" None 0)] /\
    sleeps tr = [] /\
    api w' = [] /\
    token_manager w' = Examples.tm_cached /\
    (404 = 204 -> v = VDict [("success", VBool true)]) /\
    (404 = 200 \/ 404 = 201 ->
       v = success_value (mkResponse 404 "no such customer" None 0)) /\
    (404 <> 200 -> 404 <> 201 -> 404 <> 204 ->
       v = VNone /\
       last tr = Some (EvLog ERROR (BCApiError "GET" "customers(x)" 404
                                      "no such customer"))).
Proof.
  apply (X7_first_answer_decides Examples.client "GET" "customers(x)" None None false
           (Examples.world_with [Answers (mkResponse 404 "no such customer" None 0)])
           "tok" 3600000000 (mkResponse 404 "no such customer" None 0) []).
  - cbn. lia.
  - repeat split; try reflexivity; discriminate.
  - reflexivity.
  - reflexivity.
  - cbn. lia.
  - reflexivity.
Defined.

(** ** Request executor: retries *)

Lemma fetch_after_log (w : world) (rec : log_record) :
  configured (config w) = true ->
  _token (token_manager w) = None ->
  Auth.get_token (snd (log DEBUG rec w)) = Auth._fetch (snd (log DEBUG rec w)).
Proof.
  intros Hc Ht. rewrite get_token_configured by exact Hc.
  cbn. rewrite Ht. reflexivity.
Qed.

(** X8.  A 401 on the first attempt, with a token endpoint that then grants a
    new token: [_request] invalidates the cached token, posts once to the
    token endpoint, repeats the call with the new token in the
    [Authorization] header, and returns what the 200 answer carries, without
    sleeping.  The new token stays cached with its own expiry. *)
Theorem X8_unauthorized_then_refreshed (self : BusinessCentralClient.t)
    (method path_or_url : string) (params : option (list (string * val)))
    (data : option val) (is_full_url : bool) (w : world) (tok tok2 : string)
    (e e2 delta : Z) (denied ok granted : response) (pending rest : list net)
    (d : list (string * val)) :
  (1 < BusinessCentralClient._retries self)%nat ->
  holds_token w tok e ->
  clock w < e ->
  api w = Answers denied :: Answers ok :: pending ->
  status_code denied = 401 ->
  status_code ok = 200 ->
  token_endpoint w = Answers granted :: rest ->
  status_code granted = 200 ->
  json granted = Some (VDict d) ->
  dict_get "access_token" d = Some (VStr tok2) ->
  tok2 <> "" ->
  PyOps.timedelta_seconds (default (VInt 3600) (dict_get "expires_in" d)) = Ok delta ->
  PyOps.datetime_add (clock w + elapsed denied + elapsed granted) delta = Ok e2 ->
  exists w' tr,
    BusinessCentralClient._request self method path_or_url params data is_full_url w
    = (Ok (success_value ok), w') /\
    trace w' = trace w ++ tr /\
    map snd (api_calls tr) = [Some denied; Some ok] /\
    bearer_headers tr = [Some ("Bearer " +:+ tok); Some ("Bearer " +:+ tok2)] /\
    map snd (token_posts tr) = [Some granted] /\
    count_invalidate tr = 1%nat /\
    sleeps tr = [] /\
    token_manager w' = mkTM (Some tok2) (Some e2) (_scope (token_manager w)) /\
    api w' = pending /\
    token_endpoint w' = rest.
Proof.
  intros Hn Htok Hclock Hapi H401 H200 Hnet Hg200 Hj Htok2 Hne2 Hdelta Hadd.
  destruct (BusinessCentralClient._retries self) as [|[|n]] eqn:En; [lia | lia |].
  set (url := resolved_url self path_or_url is_full_url).
  assert (Hloop : exists w1,
             BusinessCentralClient.request_loop self method url params data
               (seq 0 (S (S n))) None w = (Ok (BusinessCentralClient.Return
                                                (success_value ok)), w1) /\
             exists tr, trace w1 = trace w ++ tr /\
               map snd (api_calls tr) = [Some denied; Some ok] /\
               bearer_headers tr = [Some ("Bearer " +:+ tok); Some ("Bearer " +:+ tok2)] /\
               map snd (token_posts tr) = [Some granted] /\
               count_invalidate tr = 1%nat /\ sleeps tr = [] /\
               token_manager w1 = mkTM (Some tok2) (Some e2) (_scope (token_manager w)) /\
               api w1 = pending /\ token_endpoint w1 = rest).
  { destruct Htok as (Hc & Ht & Hne & He).
    cbn [seq].
    erewrite (loop_401 self method url params data 0 _ None w _ tok denied
                (Answers ok :: pending));
      [| apply (cached_after_log w tok e); [repeat split; assumption | exact Hclock]
       | exact Hne | exact Hapi | exact H401].
    run.
    erewrite (loop_final_with self method url params data 1 _ _ _ _ tok2 ok pending);
      [| rewrite fetch_after_log by (cbn; auto);
         apply (fetch_success _ granted rest d tok2 delta e2);
           cbn; try assumption; reflexivity
       | exact Hne2 | reflexivity | lia | lia].
    unfold final_flow. rewrite H200. cbn [Z.eqb Pos.eqb orb]. norm.
    eexists. split; [reflexivity |]. run.
    eexists. split; [rewrite <- !app_assoc; reflexivity |].
    unfold bearer_headers. cbn. repeat split; reflexivity. }
  destruct Hloop as (w1 & Hloop & tr & Htr & Hprops).
  rewrite <- En in Hloop.
  rewrite (request_of_loop _ _ _ _ _ _ _ _ _ Hloop). cbn [finish fst snd].
  eexists. exists tr. split; [reflexivity |]. norm.
  rewrite app_nil_r. split; [exact Htr | exact Hprops].
Qed.

Lemma X8_witness :
  exists w' tr,
    BusinessCentralClient._request Examples.client "GET" "customers" None None false
      Scenarios.world_refresh
    = (Ok (success_value Examples.ok_200), w') /\
    trace w' = [] ++ tr /\
    map snd (api_calls tr) = [Some Examples.unauthorized_401; Some Examples.ok_200] /\
    bearer_headers tr = [Some "Bearer tok"; Some "Bearer tok2"] /\
    map snd (token_posts tr) = [Some (Examples.token_200 3600)] /\
    count_invalidate tr = 1%nat /\
    sleeps tr = [] /\
    token_manager w' = mkTM (Some "tok2") (Some 3600000000) (_scope Auth.init) /\
    api w' = [] /\
    token_endpoint w' = [].
Proof.
  apply (X8_unauthorized_then_refreshed Examples.client "GET" "customers" None None
           false Scenarios.world_refresh "tok" "tok2" 3600000000 3600000000 3600000000
           Examples.unauthorized_401 Examples.ok_200 (Examples.token_200 3600) [] []
           [("access_token", VStr "tok2"); ("expires_in", VInt 3600)]);
    try reflexivity; try discriminate.
  - cbn. lia.
  - repeat split; try reflexivity; discriminate.
Defined.

(** X9.  A 401 on the first attempt, with a token endpoint that then refuses
    a new token: the second attempt finds no credential, and [_request]
    returns [None] after the warning that the credentials are not configured,
    with one call to Business Central, no error record, and no token left in
    the token manager. *)
Theorem X9_unauthorized_refresh_refused (self : BusinessCentralClient.t)
    (method path_or_url : string) (params : option (list (string * val)))
    (data : option val) (is_full_url : bool) (w : world) (tok : string) (e : Z)
    (denied refused : response) (pending rest : list net) :
  (1 < BusinessCentralClient._retries self)%nat ->
  holds_token w tok e ->
  clock w < e ->
  api w = Answers denied :: pending ->
  status_code denied = 401 ->
  token_endpoint w = Answers refused :: rest ->
  status_code refused <> 200 ->
  exists w' tr,
    BusinessCentralClient._request self method path_or_url params data is_full_url w
    = (Ok VNone, w') /\
    trace w' = trace w ++ tr /\
    map snd (api_calls tr) = [Some denied] /\
    map snd (token_posts tr) = [Some refused] /\
    last tr = Some (EvLog WARNING CredentialsNotConfigured) /\
    Forall (fun ev => forall rec, ev <> EvLog ERROR rec) tr /\
    _token (token_manager w') = None /\
    api w' = pending.
Proof.
  intros Hn Htok Hclock Hapi H401 Hnet Hrefused.
  destruct (BusinessCentralClient._retries self) as [|[|n]] eqn:En; [lia | lia |].
  set (url := resolved_url self path_or_url is_full_url).
  assert (Hloop : exists w1,
             BusinessCentralClient.request_loop self method url params data
               (seq 0 (S (S n))) None w = (Ok (BusinessCentralClient.Return VNone), w1) /\
             exists tr, trace w1 = trace w ++ tr /\
               map snd (api_calls tr) = [Some denied] /\
               map snd (token_posts tr) = [Some refused] /\
               last tr = Some (EvLog WARNING CredentialsNotConfigured) /\
               Forall (fun ev => forall rec, ev <> EvLog ERROR rec) tr /\
               _token (token_manager w1) = None /\ api w1 = pending).
  { destruct Htok as (Hc & Ht & Hne & He).
    cbn [seq].
    erewrite (loop_401 self method url params data 0 _ None w _ tok denied pending);
      [| apply (cached_after_log w tok e); [repeat split; assumption | exact Hclock]
       | exact Hne | exact Hapi | exact H401].
    run.
    erewrite (loop_no_token_with self method url params data 1 _ _ _ _ None);
      [| rewrite fetch_after_log by (cbn; auto);
         apply (fetch_refused _ refused rest); [exact Hnet | exact Hrefused]
       | reflexivity].
    eexists. split; [reflexivity |]. run.
    eexists. split; [rewrite <- !app_assoc; reflexivity |].
    cbn. repeat split; try reflexivity.
    repeat constructor; intros rec; discriminate. }
  destruct Hloop as (w1 & Hloop & tr & Htr & Hprops).
  rewrite <- En in Hloop.
  rewrite (request_of_loop _ _ _ _ _ _ _ _ _ Hloop). cbn [finish fst snd].
  eexists. exists tr. split; [reflexivity |]. norm.
  rewrite app_nil_r. split; [exact Htr | exact Hprops].
Qed.

Lemma X9_witness :
  exists w' tr,
    BusinessCentralClient._request Examples.client "GET" "customers" None None false
      Scenarios.world_refresh_refused
    = (Ok VNone, w') /\
    trace w' = [] ++ tr /\
    map snd (api_calls tr) = [Some Examples.unauthorized_401] /\
    map snd (token_posts tr) = [Some (mkResponse 400 "invalid_client" None 0)] /\
    last tr = Some (EvLog WARNING CredentialsNotConfigured) /\
    Forall (fun ev => forall rec, ev <> EvLog ERROR rec) tr /\
    _token (token_manager w') = None /\
    api w' = [].
Proof.
  apply (X9_unauthorized_refresh_refused Examples.client "GET" "customers" None None
           false Scenarios.world_refresh_refused "tok" 3600000000
           Examples.unauthorized_401 (mkResponse 400 "invalid_client" None 0) [] []);
    try reflexivity.
  - cbn. lia.
  - repeat split; try reflexivity; discriminate.
  - cbn. lia.
Defined.

Lemma sum_powers (i n : nat) :
  foldr Z.add 0 (map (fun j => 2 ^ Z.of_nat j) (seq i n))
  = 2 ^ Z.of_nat (i + n) - 2 ^ Z.of_nat i.
Proof.
  revert i. induction n as [|n IH]; intros i.
  - rewrite Nat.add_0_r. cbn. lia.
  - cbn [seq map foldr]. rewrite IH.
    replace (Z.of_nat (S i + n)) with (Z.of_nat (i + S n)) by lia.
    replace (Z.of_nat (S i)) with (Z.of_nat i + 1) by lia.
    rewrite Z.pow_add_r by lia. lia.
Qed.

(** X10.  When server errors use up a budget of [n] attempts, [_request] has
    slept after every one of them, the last included: [2^0, ..., 2^(n-1)]
    seconds, [2^n - 1] in all (7 seconds with the default budget), before it
    returns [None]. *)
Theorem X10_exhaustion_sleeps_after_last (self : BusinessCentralClient.t)
    (method path_or_url : string) (params : option (list (string * val)))
    (data : option val) (is_full_url : bool) (w : world) (tok : string) (e : Z)
    (fails : list response) (pending : list net) :
  holds_token w tok e ->
  length fails = BusinessCentralClient._retries self ->
  Forall server_error fails ->
  api w = map Answers fails ++ pending ->
  clock w + backoff_time 0 fails < e ->
  exists w' tr,
    BusinessCentralClient._request self method path_or_url params data is_full_url w
    = (Ok VNone, w') /\
    trace w' = trace w ++ tr /\
    sleeps tr
    = map (fun i => 2 ^ Z.of_nat i) (seq 0 (BusinessCentralClient._retries self)) /\
    foldr Z.add 0 (sleeps tr)
    = 2 ^ Z.of_nat (BusinessCentralClient._retries self) - 1 /\
    clock w' = clock w + backoff_time 0 fails.
Proof.
  intros Htok Hlen Hfails Hapi Hclock.
  set (url := resolved_url self path_or_url is_full_url).
  pose proof (loop_5xx self method url params data tok e fails 0%nat
                [] None w pending Htok Hfails Hapi Hclock) as Hloop.
  rewrite app_nil_r, Hlen in Hloop. cbn [BusinessCentralClient.request_loop] in Hloop.
  rewrite (request_of_loop _ _ _ _ _ _ _ _ _ Hloop).
  replace (fst (finish method path_or_url
                  (BusinessCentralClient.Fallthrough (last_response fails None))))
    with VNone by (destruct (last_response fails None); reflexivity).
  do 2 eexists. split; [reflexivity |]. norm.
  split; [rewrite <- app_assoc; reflexivity |].
  assert (Hs : sleeps (backoff_trace self method url tok params data 0 fails
                         ++ snd (finish method path_or_url
                                   (BusinessCentralClient.Fallthrough
                                      (last_response fails None))))
               = map (fun i => 2 ^ Z.of_nat i)
                   (seq 0 (BusinessCentralClient._retries self))).
  { rewrite sleeps_app, sleeps_backoff, Hlen.
    destruct (last_response fails None); cbn; apply app_nil_r. }
  rewrite Hs. repeat split.
  rewrite sum_powers. cbn. lia.
Qed.

Lemma X10_witness :
  exists w' tr,
    BusinessCentralClient._request Examples.client "GET" "customers" None None
      false Examples.world_three_failures = (Ok VNone, w') /\
    trace w' = [] ++ tr /\
    sleeps tr = [1; 2; 4] /\
    foldr Z.add 0 (sleeps tr) = 7 /\
    clock w' = 7000000.
Proof.
  apply (X10_exhaustion_sleeps_after_last Examples.client "GET" "customers" None None
           false Examples.world_three_failures "tok" 3600000000
           [Examples.error_500 "a"; Examples.error_500 "b"; Examples.error_500 "c"]
           [Answers Examples.ok_200]).
  - repeat split; try reflexivity; discriminate.
  - reflexivity.
  - repeat constructor; cbn; lia.
  - reflexivity.
  - reflexivity.
Defined.

(** ** Domain operations on the standard API *)

(** X11.  Without a complete client identity, [_request] returns [None] in
    its first iteration: it records the request and the warning that the
    credentials are not configured, calls neither the token endpoint nor
    Business Central, and leaves the token manager alone. *)
Theorem X11_request_without_identity (self : BusinessCentralClient.t)
    (method path_or_url : string) (params : option (list (string * val)))
    (data : option val) (is_full_url : bool) (w : world) :
  configured (config w) = false ->
  (0 < BusinessCentralClient._retries self)%nat ->
  BusinessCentralClient._request self method path_or_url params data is_full_url w
  = (Ok VNone,
     mkWorld (config w) (token_manager w) (clock w) (token_endpoint w) (api w)
       (trace w ++
          [EvLog DEBUG (BCRequest 1 method (resolved_url self path_or_url is_full_url)
                          params data);
           EvLog WARNING CredentialsNotConfigured])).
Proof. apply request_unconfigured. Qed.

Lemma X11_witness :
  BusinessCentralClient._request Examples.client_mock "GET" "items" None None false
    Examples.world_mock
  = (Ok VNone,
     mkWorld Examples.cfg_mock Auth.init 0 [] []
       [EvLog DEBUG (BCRequest 1 "GET" "None/companies(None)/items" None None);
        EvLog WARNING CredentialsNotConfigured]).
Proof.
  apply (X11_request_without_identity Examples.client_mock "GET" "items" None None
           false Examples.world_mock); [reflexivity | cbn; lia].
Defined.

(** X12.  Without a complete client identity, every operation on the
    standard API returns an empty list (the list operations) or [None] (the
    others), records only log records, and consumes no answer of the token
    endpoint or of Business Central. *)
Theorem X12_standard_operations_without_identity (self : BusinessCentralClient.t)
    (w : world) (top : Z) (key : string) (code : option string) (data : val) :
  configured (config w) = false ->
  (0 < BusinessCentralClient._retries self)%nat ->
  let quiet_run (out : result val * world) (v : val) :=
    fst out = Ok v /\ token_endpoint (snd out) = token_endpoint w /\
    api (snd out) = api w /\
    exists tr, trace (snd out) = trace w ++ tr /\ Forall quiet tr in
  quiet_run (BusinessCentralClient.get_customers self top w) (VList []) /\
  quiet_run (BusinessCentralClient.get_customer self key w) VNone /\
  quiet_run (BusinessCentralClient.get_customer_by_id self key w) VNone /\
  quiet_run (BusinessCentralClient.get_items self top w) (VList []) /\
  quiet_run (BusinessCentralClient.get_item_by_number self key w) VNone /\
  quiet_run (BusinessCentralClient.get_orders self top w) (VList []) /\
  quiet_run (BusinessCentralClient.get_sales_orders self key top w) (VList []) /\
  quiet_run (BusinessCentralClient.create_customer self data w) VNone /\
  quiet_run (BusinessCentralClient.get_currency_exchange_rates self code top w)
    (VList []).
Proof. apply standard_operations_unconfigured. Qed.

Lemma X12_witness :
  fst (BusinessCentralClient.get_item_by_number Examples.client_mock "1896-S"
         Examples.world_mock) = Ok VNone /\
  fst (BusinessCentralClient.get_orders Examples.client_mock 10 Examples.world_mock)
  = Ok (VList []).
Proof.
  destruct (X12_standard_operations_without_identity Examples.client_mock
              Examples.world_mock 10 "1896-S" None VNone eq_refl
              ltac:(cbn; lia))
    as (_ & _ & _ & _ & (H5 & _) & (H6 & _) & _).
  split; [exact H5 | exact H6].
Defined.

Lemma final_flow_refusal (r : response) :
  refusal r -> final_flow r = BusinessCentralClient.Fallthrough (Some r).
Proof.
  intros (H1 & H2 & H3 & _). unfold final_flow.
  replace (status_code r =? 200) with false by lia.
  replace (status_code r =? 201) with false by lia.
  replace (status_code r =? 204) with false by lia.
  reflexivity.
Qed.

Lemma final_flow_200 (r : response) :
  status_code r = 200 -> final_flow r = BusinessCentralClient.Return (success_value r).
Proof. intros H. unfold final_flow. rewrite H. reflexivity. Qed.

(** X13.  [get_item_by_number], with a valid cached token, when the keyed
    request [items({no})] is refused (a 404, say) and the listing that
    follows answers 200 with a [value] array: the result is the first element
    of the array, or [None] when it is empty, after exactly two calls, the
    second on [items] with [$filter = number eq '{no}'] and [$top = 1]. *)
Theorem X13_item_lookup_falls_back (self : BusinessCentralClient.t) (item_no : string)
    (w : world) (tok : string) (e : Z) (miss hit : response)
    (d : list (string * val)) (l : list val) (pending : list net) :
  (0 < BusinessCentralClient._retries self)%nat ->
  holds_token w tok e ->
  clock w < e ->
  clock w + elapsed miss < e ->
  api w = Answers miss :: Answers hit :: pending ->
  refusal miss ->
  status_code hit = 200 ->
  json hit = Some (VDict d) ->
  dict_get "value" d = Some (VList l) ->
  exists w' tr,
    BusinessCentralClient.get_item_by_number self item_no w = (Ok (hd VNone l), w') /\
    trace w' = trace w ++ tr /\
    map (fun call => (rq_method (fst call), rq_url (fst call), rq_params (fst call),
                      snd call))
      (api_calls tr)
    = [("GET",
        APIEndpointBuilder.build_standard_url (BusinessCentralClient.url_builder self)
          ("items(" +:+ item_no +:+ ")"),
        None, Some miss);
       ("GET",
        APIEndpointBuilder.build_standard_url (BusinessCentralClient.url_builder self)
          "items",
        Some [("$filter", VStr ("number eq '" +:+ item_no +:+ "'")); ("$top", VInt 1)],
        Some hit)] /\
    api w' = pending.
Proof.
  intros Hn Htok Hclock Hclock2 Hapi Hmiss H200 Hj Hvalue.
  unfold BusinessCentralClient.get_item_by_number.
  rewrite (bind_ok _ _ _ _ _
             (request_first_answer self "GET" _ None None false w tok e miss
                (Answers hit :: pending) Hn Htok Hclock Hapi
                ltac:(destruct Hmiss as (_ & _ & _ & H & _); exact H)
                ltac:(destruct Hmiss as (_ & _ & _ & _ & H); exact H))).
  rewrite (final_flow_refusal miss Hmiss). cbn [finish fst snd truthy].
  erewrite bind_ok;
    [| apply (request_first_answer self "GET" _ _ None false _ tok e hit pending Hn);
       [exact Htok | exact Hclock2 | reflexivity | lia | lia]].
  rewrite (final_flow_200 hit H200). unfold success_value. rewrite Hj.
  cbn [finish fst snd]. run. rewrite (first_value_array d l Hvalue).
  do 2 eexists. split; [reflexivity |]. norm.
  split; [rewrite <- !app_assoc; reflexivity |].
  split; reflexivity.
Qed.

Lemma X13_witness :
  exists w' tr,
    BusinessCentralClient.get_item_by_number Examples.client "ABC"
      Scenarios.world_item_fallback = (Ok (hd VNone [VDict [("number", VStr "ABC")]]), w') /\
    trace w' = [] ++ tr /\
    map (fun call => (rq_method (fst call), rq_url (fst call), rq_params (fst call),
                      snd call))
      (api_calls tr)
    = [("GET",
        APIEndpointBuilder.build_standard_url
          (BusinessCentralClient.url_builder Examples.client) ("items(" +:+ "ABC" +:+ ")"),
        None, Some Scenarios.not_found_404);
       ("GET",
        APIEndpointBuilder.build_standard_url
          (BusinessCentralClient.url_builder Examples.client) "items",
        Some [("$filter", VStr ("number eq '" +:+ "ABC" +:+ "'")); ("$top", VInt 1)],
        Some Scenarios.one_item_200)] /\
    api w' = [].
Proof.
  apply (X13_item_lookup_falls_back Examples.client "ABC" Scenarios.world_item_fallback
           "tok" 3600000000 Scenarios.not_found_404 Scenarios.one_item_200
           [("value", VList [VDict [("number", VStr "ABC")]])]
           [VDict [("number", VStr "ABC")]] []);
    try reflexivity.
  - cbn. lia.
  - repeat split; try reflexivity; discriminate.
  - repeat split; cbn; lia.
Defined.

(** X14.  [get_item_by_number], with a valid cached token, when the keyed
    request answers 200 or 201 with a JSON value that Python takes as true:
    that value is the result, and no listing is requested. *)
Theorem X14_item_lookup_direct_hit (self : BusinessCentralClient.t) (item_no : string)
    (w : world) (tok : string) (e : Z) (hit : response) (j : val)
    (pending : list net) :
  (0 < BusinessCentralClient._retries self)%nat ->
  holds_token w tok e ->
  clock w < e ->
  api w = Answers hit :: pending ->
  status_code hit = 200 \/ status_code hit = 201 ->
  json hit = Some j ->
  truthy j = true ->
  exists w' tr,
    BusinessCentralClient.get_item_by_number self item_no w = (Ok j, w') /\
    trace w' = trace w ++ tr /\
    map (fun call => (rq_url (fst call), snd call)) (api_calls tr)
    = [(APIEndpointBuilder.build_standard_url (BusinessCentralClient.url_builder self)
          ("items(" +:+ item_no +:+ ")"),
        Some hit)] /\
    api w' = pending.
Proof.
  intros Hn Htok Hclock Hapi Hst Hj Htruthy.
  unfold BusinessCentralClient.get_item_by_number.
  rewrite (bind_ok _ _ _ _ _
             (request_first_answer self "GET" _ None None false w tok e hit
                pending Hn Htok Hclock Hapi ltac:(lia) ltac:(lia))).
  assert (Hflow : final_flow hit = BusinessCentralClient.Return j).
  { unfold final_flow, success_value. rewrite Hj.
    destruct Hst as [-> | ->]; reflexivity. }
  rewrite Hflow. cbn [finish fst snd]. rewrite Htruthy. run.
  do 2 eexists. split; [reflexivity |]. norm.
  split; [reflexivity |]. split; reflexivity.
Qed.

Lemma X14_witness :
  exists w' tr,
    BusinessCentralClient.get_item_by_number Examples.client "ABC"
      (Examples.world_with [Answers Scenarios.one_item_200])
    = (Ok (VDict [("value", VList [VDict [("number", VStr "ABC")]])]), w') /\
    trace w' = [] ++ tr /\
    map (fun call => (rq_url (fst call), snd call)) (api_calls tr)
    = [(APIEndpointBuilder.build_standard_url
          (BusinessCentralClient.url_builder Examples.client) ("items(" +:+ "ABC" +:+ ")"),
        Some Scenarios.one_item_200)] /\
    api w' = [].
Proof.
  apply (X14_item_lookup_direct_hit Examples.client "ABC"
           (Examples.world_with [Answers Scenarios.one_item_200]) "tok" 3600000000
           Scenarios.one_item_200
           (VDict [("value", VList [VDict [("number", VStr "ABC")]])]) []);
    try reflexivity.
  - cbn. lia.
  - repeat split; try reflexivity; discriminate.
  - left. reflexivity.
Defined.

Lemma loop_trace_calls (self : BusinessCentralClient.t) (method url : string)
    (params : option (list (string * val))) (data : option val) (n : nat)
    (tr : list event) :
  loop_trace self method url params data n tr ->
  (length (api_calls tr) <= n)%nat /\
  Forall (fun call =>
            rq_method (fst call) = method /\ rq_url (fst call) = url /\
            rq_params (fst call) = params /\ rq_json (fst call) = data)
    (api_calls tr).
Proof.
  intros (Hsent & _ & Hn). split; [exact Hn |].
  eapply Forall_impl; [apply sent_as_api_calls, Hsent |].
  intros [rq res] [token Hrq]. cbn [fst] in *. subst rq. repeat split.
Qed.

(** X15.  Whatever the network and the token manager do, [get_item_by_number]
    sends at most twice [_retries] calls to Business Central, each a [GET]
    either on [items({no})] without parameters or on [items] with
    [$filter = number eq '{no}'] and [$top = 1]. *)
Theorem X15_item_lookup_call_bound (self : BusinessCentralClient.t) (item_no : string)
    (w : world) :
  exists tr,
    trace (snd (BusinessCentralClient.get_item_by_number self item_no w))
    = trace w ++ tr /\
    (length (api_calls tr) <= 2 * BusinessCentralClient._retries self)%nat /\
    Forall (fun call =>
              rq_method (fst call) = "GET" /\ rq_json (fst call) = None /\
              ((rq_url (fst call)
                = APIEndpointBuilder.build_standard_url
                    (BusinessCentralClient.url_builder self)
                    ("items(" +:+ item_no +:+ ")") /\
                rq_params (fst call) = None) \/
               (rq_url (fst call)
                = APIEndpointBuilder.build_standard_url
                    (BusinessCentralClient.url_builder self) "items" /\
                rq_params (fst call)
                = Some [("$filter", VStr ("number eq '" +:+ item_no +:+ "'"));
                        ("$top", VInt 1)])))
      (api_calls tr).
Proof.
  unfold BusinessCentralClient.get_item_by_number.
  destruct (request_invariant self "GET" ("items(" +:+ item_no +:+ ")") None None
              false w) as (_ & tr1 & Htr1 & H1).
  apply loop_trace_calls in H1 as [Hn1 Hc1].
  destruct (BusinessCentralClient._request self "GET" ("items(" +:+ item_no +:+ ")")
              None None false w) as [[v|e] w1] eqn:E1; cbn [snd] in *.
  2: { rewrite (bind_raise _ _ _ _ _ E1). cbn [snd]. exists tr1.
       split; [exact Htr1 | split; [lia |]].
       eapply Forall_impl; [exact Hc1 |]. cbn. intros call (? & ? & ? & ?). auto. }
  rewrite (bind_ok _ _ _ _ _ E1).
  destruct (truthy v).
  { run. exists tr1. split; [exact Htr1 | split; [lia |]].
    eapply Forall_impl; [exact Hc1 |]. cbn. intros call (? & ? & ? & ?). auto. }
  rewrite snd_bind_lift.
  destruct (request_invariant self "GET" "items"
              (Some [("$filter", VStr ("number eq '" +:+ item_no +:+ "'"));
                     ("$top", VInt 1)]) None false w1) as (_ & tr2 & Htr2 & H2).
  apply loop_trace_calls in H2 as [Hn2 Hc2].
  exists (tr1 ++ tr2). split; [rewrite Htr2, Htr1, app_assoc; reflexivity |].
  rewrite api_calls_app, length_app. split; [lia |].
  apply Forall_app. split.
  - eapply Forall_impl; [exact Hc1 |]. cbn. intros call (? & ? & ? & ?). auto.
  - eapply Forall_impl; [exact Hc2 |]. cbn. intros call (? & ? & ? & ?). auto.
Qed.

(** X16.  [get_items] with a valid cached token and a first answer that is
    neither a 401 nor a server error: a 200 with a JSON object gives the
    [value] member of the object, or the empty list when it has none; a 200
    whose JSON body is a non-empty array raises [AttributeError]; a 204 and
    every refusal give the empty list. *)
Theorem X16_get_items_unwraps (self : BusinessCentralClient.t) (top : Z) (w : world)
    (tok : string) (e : Z) (r : response) (pending : list net) :
  (0 < BusinessCentralClient._retries self)%nat ->
  holds_token w tok e ->
  clock w < e ->
  api w = Answers r :: pending ->
  status_code r <> 401 ->
  status_code r < 500 ->
  (forall d, status_code r = 200 -> json r = Some (VDict d) ->
     fst (BusinessCentralClient.get_items self top w)
     = Ok (default (VList []) (dict_get "value" d))) /\
  (forall x l, status_code r = 200 -> json r = Some (VList (x :: l)) ->
     fst (BusinessCentralClient.get_items self top w) = Raise AttributeError) /\
  (status_code r = 204 ->
     fst (BusinessCentralClient.get_items self top w) = Ok (VList [])) /\
  (refusal r -> fst (BusinessCentralClient.get_items self top w) = Ok (VList [])).
Proof.
  intros Hn Htok Hclock Hapi H401 H5xx.
  unfold BusinessCentralClient.get_items.
  rewrite (bind_ok _ _ _ _ _
             (request_first_answer self "GET" "items" (Some [("$top", VInt top)]) None
                false w tok e r pending Hn Htok Hclock Hapi H401 H5xx)).
  repeat split.
  - intros d H200 Hj. rewrite (final_flow_200 r H200). unfold success_value.
    rewrite Hj. cbn [finish fst]. run.
    unfold BusinessCentralClient.value_or_empty.
    destruct d as [|kv d]; reflexivity.
  - intros x l H200 Hj. rewrite (final_flow_200 r H200). unfold success_value.
    rewrite Hj. reflexivity.
  - intros H204. unfold final_flow. rewrite H204. reflexivity.
  - intros Href. rewrite (final_flow_refusal r Href). reflexivity.
Qed.

Lemma X16_witness :
  fst (BusinessCentralClient.get_items Examples.client 20
         (Examples.world_with [Answers Scenarios.one_item_200]))
  = Ok (VList [VDict [("number", VStr "ABC")]]).
Proof.
  destruct (X16_get_items_unwraps Examples.client 20
              (Examples.world_with [Answers Scenarios.one_item_200]) "tok" 3600000000
              Scenarios.one_item_200 []) as (H & _).
  - cbn. lia.
  - repeat split; try reflexivity; discriminate.
  - reflexivity.
  - reflexivity.
  - cbn. lia.
  - cbn. lia.
  - apply (H [("value", VList [VDict [("number", VStr "ABC")]])]); reflexivity.
Defined.

(** ** The filter of [get_deliveries] *)

(** X17.  The parameters that [get_deliveries] sends are [$top] followed,
    when at least one of [customer_id], [status], [date_from], [date_to] has a
    non-empty value, by [$filter]: the clauses for the customer and the
    status, then the date clauses, joined by [and], the date clauses in
    parentheses when a customer or status clause precedes them.  Other keys
    and empty values are ignored. *)
Theorem X17_deliveries_params_clauses (filters : option (gmap string string)) (top : Z) :
  BusinessCentralClient.deliveries_params filters top
  = FilterSpec.expected_params filters top.
Proof.
  destruct filters as [f|]; [| reflexivity].
  unfold BusinessCentralClient.deliveries_params, FilterSpec.expected_params,
    FilterSpec.conjunction, FilterSpec.field_clauses, FilterSpec.date_clauses,
    FilterSpec.clause.
  destruct (bool_decide (f = ∅)) eqn:E.
  - apply bool_decide_eq_true in E. subst f. rewrite !lookup_empty. reflexivity.
  - destruct (truthy_str (f !! "customer_id")), (truthy_str (f !! "status")),
      (truthy_str (f !! "date_from")), (truthy_str (f !! "date_to"));
      cbn; repeat (progress (rewrite ?append_assoc; cbn)); reflexivity.
Qed.

Example deliveries_params_all :
  BusinessCentralClient.deliveries_params
    (Some (<["customer_id" := "C1"]> (<["status" := "Pending"]>
       (<["date_from" := "2024-01-01"]> (<["date_to" := "2024-01-31"]>
          (<["note" := "x"]> ∅)))))) 5
  = [("$top", VInt 5);
     ("$filter",
      VStr "customerId eq 'C1' and status eq 'Pending' and (deliveryDate ge 2024-01-01 and deliveryDate le 2024-01-31)")].
Proof. reflexivity. Qed.

Example deliveries_params_dates_only :
  BusinessCentralClient.deliveries_params
    (Some (<["status" := ""]> (<["date_from" := "2024-01-01"]>
       (<["date_to" := "2024-01-31"]> ∅)))) 5
  = [("$top", VInt 5);
     ("$filter", VStr "deliveryDate ge 2024-01-01 and deliveryDate le 2024-01-31")].
Proof. reflexivity. Qed.

(** ** Routes, optimization and inventory *)

(** X18.  With a base URL configured, the calls that [get_delivery_routes],
    [optimize_route] and [get_inventory_status] send to Business Central are
    at most [_retries] each and go to [routes], [routes/optimize] and
    [inventory] under the company-scoped path of the delivery API: a [GET]
    with the two date bounds (and the driver, when given) in [$filter]; a
    [POST] with the route data as body, unchanged; a [GET] with the warehouse
    in [$filter], or with an empty parameter dictionary when none is given. *)
Theorem X18_custom_operations_calls (self : BusinessCentralClient.t) (base : string)
    (date_from date_to : string) (driver_id warehouse_id : option string)
    (route_data : val) (w : world) :
  APIEndpointBuilder.base_url (BusinessCentralClient.url_builder self) = Some base ->
  let calls_of (w' : world) (method url : string)
        (params : option (list (string * val))) (data : option val) :=
    exists tr,
      trace w' = trace w ++ tr /\
      (length (api_calls tr) <= BusinessCentralClient._retries self)%nat /\
      Forall (fun call =>
                rq_method (fst call) = method /\ rq_url (fst call) = url /\
                rq_params (fst call) = params /\ rq_json (fst call) = data)
        (api_calls tr) in
  calls_of (snd (BusinessCentralClient.get_delivery_routes self date_from date_to
                   driver_id w))
    "GET" (delivery_root self base +:+ "routes")
    (Some [("$filter",
            VStr (if truthy_str driver_id
                  then ("routeDate ge " +:+ date_from +:+ " and routeDate le " +:+ date_to)
                       +:+ " and driverId eq '" +:+ fstr driver_id +:+ "'"
                  else "routeDate ge " +:+ date_from +:+ " and routeDate le " +:+ date_to))])
    None /\
  calls_of (snd (BusinessCentralClient.optimize_route self route_data w))
    "POST" (delivery_root self base +:+ "routes/optimize") None (Some route_data) /\
  calls_of (snd (BusinessCentralClient.get_inventory_status self warehouse_id w))
    "GET" (delivery_root self base +:+ "inventory")
    (Some (if truthy_str warehouse_id
           then [("$filter", VStr ("warehouseId eq '" +:+ fstr warehouse_id +:+ "'"))]
           else []))
    None.
Proof.
  intros Hb calls_of. subst calls_of. cbv beta.
  unfold BusinessCentralClient.get_delivery_routes, BusinessCentralClient.optimize_route,
    BusinessCentralClient.get_inventory_status.
  rewrite !(custom_url_some self base _ Hb).
  repeat split.
  - erewrite bind_ok by reflexivity. rewrite snd_bind_lift.
    destruct (truthy_str driver_id);
      match goal with
      | |- context [BusinessCentralClient._request ?s ?m ?u ?p ?d true w] =>
          destruct (request_invariant s m u p d true w) as (_ & tr & Htr & H);
          apply loop_trace_calls in H as [Hn Hc]; exists tr; auto
      end.
  - erewrite bind_ok by reflexivity.
    match goal with
    | |- context [BusinessCentralClient._request ?s ?m ?u ?p ?d true w] =>
        destruct (request_invariant s m u p d true w) as (_ & tr & Htr & H);
        apply loop_trace_calls in H as [Hn Hc]; exists tr; auto
    end.
  - erewrite bind_ok by reflexivity. rewrite snd_bind_lift.
    destruct (truthy_str warehouse_id);
      match goal with
      | |- context [BusinessCentralClient._request ?s ?m ?u ?p ?d true w] =>
          destruct (request_invariant s m u p d true w) as (_ & tr & Htr & H);
          apply loop_trace_calls in H as [Hn Hc]; exists tr; auto
      end.
Qed.

Lemma X18_witness :
  exists tr,
    trace (snd (BusinessCentralClient.optimize_route Examples.client
                  (VDict [("deliveries", VList [])])
                  (Examples.world_with [Answers Examples.ok_200])))
    = [] ++ tr /\
    (length (api_calls tr) <= 3)%nat /\
    Forall (fun call =>
              rq_method (fst call) = "POST" /\
              rq_url (fst call)
              = delivery_root Examples.client
                  "https://api.businesscentral.dynamics.com/v2.0/T/production/api/v2.0"
                  +:+ "routes/optimize" /\
              rq_params (fst call) = None /\
              rq_json (fst call) = Some (VDict [("deliveries", VList [])]))
      (api_calls tr).
Proof.
  apply (X18_custom_operations_calls Examples.client
           "https://api.businesscentral.dynamics.com/v2.0/T/production/api/v2.0"
           "" "" None None (VDict [("deliveries", VList [])])
           (Examples.world_with [Answers Examples.ok_200]) eq_refl).
Defined.

(** ** Endpoint builder: other shapes *)

(** X19.  When the base URL does not contain [/api/v2.0], [build_custom_url]
    builds on the whole base URL; without company scope the result is
    [{base}/api/{publisher}/{app_group}/{version}/{endpoint}]. *)
Theorem X19_build_custom_url_unversioned_base (self : APIEndpointBuilder.t)
    (base publisher app_group version endpoint : string) :
  APIEndpointBuilder.base_url self = Some base ->
  (forall u v, base <> u +:+ "/api/v2.0" +:+ v) ->
  APIEndpointBuilder.build_custom_url self publisher app_group version endpoint false
  = Ok (base +:+ "/api/" +:+ publisher +:+ "/" +:+ app_group +:+ "/" +:+ version
          +:+ "/" +:+ endpoint) /\
  APIEndpointBuilder.build_custom_url self publisher app_group version endpoint true
  = Ok (base +:+ "/api/" +:+ publisher +:+ "/" +:+ app_group +:+ "/" +:+ version
          +:+ "/companies(" +:+ fstr (APIEndpointBuilder.company_id self) +:+ ")/"
          +:+ endpoint).
Proof.
  intros Hb Habs.
  rewrite !(build_custom_url_some _ _ _ _ _ _ _ Hb).
  rewrite (base_without_version_absent base Habs).
  rewrite !append_assoc. split; reflexivity.
Qed.

Lemma X19_witness :
  APIEndpointBuilder.build_custom_url
    (APIEndpointBuilder.mk (Some "https://bc.example/tenant") None)
    "acme" "g" "v1" "things" false
  = Ok "https://bc.example/tenant/api/acme/g/v1/things" /\
  APIEndpointBuilder.build_custom_url
    (APIEndpointBuilder.mk (Some "https://bc.example/tenant") None)
    "acme" "g" "v1" "things" true
  = Ok "https://bc.example/tenant/api/acme/g/v1/companies(None)/things".
Proof.
  apply (X19_build_custom_url_unversioned_base
           (APIEndpointBuilder.mk (Some "https://bc.example/tenant") None)
           "https://bc.example/tenant" "acme" "g" "v1" "things" eq_refl).
  intros u v H.
  assert (Hc : str_contains "/api/v2.0" "https://bc.example/tenant" = true)
    by (apply str_contains_spec; exists u, v; exact H).
  discriminate Hc.
Defined.

(** ** Configuration *)

(** X20.  The configuration is a function of [AZURE_TENANT_ID],
    [AZURE_CLIENT_ID], [AZURE_CLIENT_SECRET], [BC_ENVIRONMENT] and
    [BC_COMPANY_ID] alone: setting any other variable, [BC_BASE_URL]
    included, changes nothing. *)
Theorem X20_load_reads_five_variables (env : gmap string string) (name value : string) :
  name <> "AZURE_TENANT_ID" -> name <> "AZURE_CLIENT_ID" ->
  name <> "AZURE_CLIENT_SECRET" -> name <> "BC_ENVIRONMENT" ->
  name <> "BC_COMPANY_ID" ->
  Config.load (<[name := value]> env) = Config.load env.
Proof.
  intros H1 H2 H3 H4 H5.
  unfold Config.load, Config._load_azure, Config._load_bc.
  rewrite !lookup_insert_ne by assumption. reflexivity.
Qed.

Lemma X20_witness :
  Config.load (<["BC_BASE_URL" := "https://bc.example/api/v2.0"]> Examples.env)
  = Config.load Examples.env.
Proof.
  apply (X20_load_reads_five_variables Examples.env "BC_BASE_URL"
           "https://bc.example/api/v2.0"); discriminate.
Defined.

(** X21.  The authority and the base URL are derived from the tenant id: with
    a non-empty [AZURE_TENANT_ID] they are
    [https://login.microsoftonline.com/{tenant}] and
    [https://api.businesscentral.dynamics.com/v2.0/{tenant}/{environment}/api/v2.0],
    the environment being [BC_ENVIRONMENT] as it is set, empty included, or
    [production] when it is not set; without one both are [None]. *)
Theorem X21_load_derives_urls (env : gmap string string) :
  Config.authority (Config.azure_ad (Config.load env))
  = (if truthy_str (env !! "AZURE_TENANT_ID")
     then Some ("https://login.microsoftonline.com/" +:+ fstr (env !! "AZURE_TENANT_ID"))
     else None) /\
  Config.base_url (Config.bc (Config.load env))
  = (if truthy_str (env !! "AZURE_TENANT_ID")
     then Some ("https://api.businesscentral.dynamics.com/v2.0/"
                  +:+ fstr (env !! "AZURE_TENANT_ID") +:+ "/"
                  +:+ default "production" (env !! "BC_ENVIRONMENT") +:+ "/api/v2.0")
     else None) /\
  Config.company_id (Config.bc (Config.load env)) = env !! "BC_COMPANY_ID" /\
  Config.client_id (Config.azure_ad (Config.load env)) = env !! "AZURE_CLIENT_ID" /\
  Config.client_secret (Config.azure_ad (Config.load env))
  = env !! "AZURE_CLIENT_SECRET".
Proof.
  unfold Config.load, Config._load_azure, Config._load_bc, Config.set_authority,
    Config.set_base_url.
  cbn. destruct (truthy_str (env !! "AZURE_TENANT_ID")) eqn:E; cbn; rewrite ?E; cbn;
    repeat split; reflexivity.
Qed.

Lemma load_fields (env : gmap string string) :
  Config.tenant_id (Config.azure_ad (Config.load env)) = env !! "AZURE_TENANT_ID" /\
  Config.client_id (Config.azure_ad (Config.load env)) = env !! "AZURE_CLIENT_ID" /\
  Config.client_secret (Config.azure_ad (Config.load env))
  = env !! "AZURE_CLIENT_SECRET" /\
  Config.company_id (Config.bc (Config.load env)) = env !! "BC_COMPANY_ID".
Proof.
  unfold Config.load, Config._load_azure, Config._load_bc, Config.set_authority,
    Config.set_base_url.
  cbn. destruct (truthy_str (env !! "AZURE_TENANT_ID")) eqn:E; cbn; rewrite ?E; cbn;
    repeat split; reflexivity.
Qed.

Lemma validate_load (env : gmap string string) :
  fst (Validation.validate (Config.load env))
  = Validation.is_not_none (env !! "AZURE_TENANT_ID")
    && Validation.is_not_none (env !! "AZURE_CLIENT_ID")
    && Validation.is_not_none (env !! "AZURE_CLIENT_SECRET")
    && Validation.is_not_none (env !! "BC_COMPANY_ID").
Proof.
  destruct (load_fields env) as (Ht & Hc & Hs & Hb).
  unfold Validation.validate. rewrite Ht, Hc, Hs, Hb.
  destruct (env !! "AZURE_TENANT_ID"), (env !! "AZURE_CLIENT_ID"),
    (env !! "AZURE_CLIENT_SECRET"), (env !! "BC_COMPANY_ID"); reflexivity.
Qed.

(** X22.  [validate] returns [True] exactly when the three identity variables
    and [BC_COMPANY_ID] are set, whatever their values.  It tests [is not
    None] where [get_token] tests truth: when all four are set and one of the
    identity variables is empty, [validate] returns [True] and [get_token]
    returns [None] without calling the token endpoint. *)
Theorem X22_validate_accepts_empty_identity (env : gmap string string) (w : world) :
  (fst (Validation.validate (Config.load env)) = true <->
   is_Some (env !! "AZURE_TENANT_ID") /\ is_Some (env !! "AZURE_CLIENT_ID") /\
   is_Some (env !! "AZURE_CLIENT_SECRET") /\ is_Some (env !! "BC_COMPANY_ID")) /\
  (fst (Validation.validate (Config.load env)) = true ->
   env !! "AZURE_TENANT_ID" = Some "" \/ env !! "AZURE_CLIENT_ID" = Some "" \/
   env !! "AZURE_CLIENT_SECRET" = Some "" ->
   config w = Config.load env ->
   Auth.get_token w = (Ok None, w)).
Proof.
  split.
  - rewrite validate_load, !andb_true_iff.
    assert (Hn : forall o : option string,
               Validation.is_not_none o = true <-> is_Some o).
    { intros [x|]; cbn; split; intros H; eauto; try discriminate.
      destruct H as [? H]. discriminate H. }
    rewrite !Hn. tauto.
  - intros _ Hempty Hcfg. apply get_token_unconfigured.
    unfold configured. rewrite Hcfg.
    destruct (load_fields env) as (Ht & Hc & Hs & _).
    rewrite Hc, Hs, Ht.
    destruct Hempty as [H | [H | H]]; rewrite H; cbn;
      rewrite ?andb_false_r; reflexivity.
Qed.

Lemma X22_witness :
  fst (Validation.validate (Config.load Scenarios.env_empty_client)) = true /\
  Auth.get_token (mkWorld (Config.load Scenarios.env_empty_client) Auth.init 0
                    [Answers (Examples.token_200 3600)] [] [])
  = (Ok None,
     mkWorld (Config.load Scenarios.env_empty_client) Auth.init 0
       [Answers (Examples.token_200 3600)] [] []).
Proof.
  split; [reflexivity |].
  apply (proj2 (X22_validate_accepts_empty_identity Scenarios.env_empty_client
                  (mkWorld (Config.load Scenarios.env_empty_client) Auth.init 0
                     [Answers (Examples.token_200 3600)] [] [])));
    [reflexivity | right; left; reflexivity | reflexivity].
Defined.

(** ** Acquisition followed by reuse *)

(** X23.  A token that [get_token] has acquired is reused: once the token
    endpoint has granted a token, every later [get_token] before the stored
    expiry returns that token and changes nothing, so the token endpoint is
    not called again. *)
Theorem X23_fetched_token_is_reused (w : world) (r : response) (rest : list net)
    (d : list (string * val)) (tok : string) (delta e : Z) :
  configured (config w) = true ->
  fst (Auth._valid w) = Ok false ->
  token_endpoint w = Answers r :: rest ->
  status_code r = 200 ->
  json r = Some (VDict d) ->
  dict_get "access_token" d = Some (VStr tok) ->
  PyOps.timedelta_seconds (default (VInt 3600) (dict_get "expires_in" d)) = Ok delta ->
  PyOps.datetime_add (clock w + elapsed r) delta = Ok e ->
  exists w1,
    Auth.get_token w = (Ok (Some tok), w1) /\
    token_endpoint w1 = rest /\
    e = clock w + elapsed r + delta /\
    forall now, now < e ->
      Auth.get_token (at_time now w1) = (Ok (Some tok), at_time now w1).
Proof.
  intros Hc Hv Hnet Hst Hj Htok Hdelta Hadd.
  rewrite (valid_false_fetch w Hc Hv).
  rewrite (fetch_success w r rest d tok delta e Hnet Hst Hj Htok Hdelta Hadd).
  eexists. split; [reflexivity |]. split; [reflexivity |]. split.
  - unfold PyOps.datetime_add in Hadd. destruct (_ && _); [| discriminate].
    injection Hadd as <-. reflexivity.
  - intros now Hnow. apply (get_token_cached _ tok e); cbn; auto.
Qed.

Lemma X23_witness :
  exists w1,
    Auth.get_token Examples.world_fetch = (Ok (Some "tok2"), w1) /\
    token_endpoint w1 = [] /\
    1700003600000000 = 1700000000000000 + 0 + 3600000000 /\
    forall now, now < 1700003600000000 ->
      Auth.get_token (at_time now w1) = (Ok (Some "tok2"), at_time now w1).
Proof.
  apply (X23_fetched_token_is_reused Examples.world_fetch (Examples.token_200 3600) []
           [("access_token", VStr "tok2"); ("expires_in", VInt 3600)] "tok2"
           3600000000 1700003600000000); reflexivity.
Defined.

(** ** The customer list *)

(** X24.  [get_customers] with a valid cached token and a first answer that
    is neither a 401 nor a server error.  A 200 with a non-empty JSON object
    whose [value] is an array returns the array after an information record
    with its length; an object without [value] counts as zero customers.  An
    empty JSON object and every refusal are recorded as a failure and give
    the empty list.  A [value] that is a number makes the information record
    raise [TypeError]. *)
Theorem X24_get_customers_records (self : BusinessCentralClient.t) (top : Z)
    (w : world) (tok : string) (e : Z) (r : response) (pending : list net) :
  (0 < BusinessCentralClient._retries self)%nat ->
  holds_token w tok e ->
  clock w < e ->
  api w = Answers r :: pending ->
  status_code r <> 401 ->
  status_code r < 500 ->
  let out := BusinessCentralClient.get_customers self top w in
  (forall kv d l, status_code r = 200 -> json r = Some (VDict (kv :: d)) ->
     default (VList []) (dict_get "value" (kv :: d)) = VList l ->
     fst out = Ok (VList l) /\
     last (trace (snd out))
     = Some (EvLog INFO (CustomersRetrieved (Z.of_nat (length l))))) /\
  (forall kv d n, status_code r = 200 -> json r = Some (VDict (kv :: d)) ->
     dict_get "value" (kv :: d) = Some (VInt n) ->
     fst out = Raise TypeError) /\
  (status_code r = 200 /\ json r = Some (VDict []) \/ refusal r ->
     fst out = Ok (VList []) /\
     last (trace (snd out)) = Some (EvLog ERROR CustomersFailed)).
Proof.
  intros Hn Htok Hclock Hapi H401 H5xx out. subst out.
  unfold BusinessCentralClient.get_customers.
  rewrite (bind_ok _ _ _ _ _
             (request_first_answer self "GET" "customers" (Some [("$top", VInt top)])
                None false w tok e r pending Hn Htok Hclock Hapi H401 H5xx)).
  split; [| split].
  - intros kv d l H200 Hj Hvalue.
    rewrite (final_flow_200 r H200). unfold success_value. rewrite Hj.
    cbn [finish fst snd truthy]. run.
    unfold BusinessCentralClient.value_or_empty, PyOps.get_default. cbn [truthy].
    rewrite Hvalue. cbn [PyOps.len]. norm. rewrite last_snoc. split; reflexivity.
  - intros kv d n H200 Hj Hvalue.
    rewrite (final_flow_200 r H200). unfold success_value. rewrite Hj.
    cbn [finish fst snd truthy]. run.
    unfold PyOps.get_default. rewrite Hvalue. reflexivity.
  - intros [[H200 Hj] | Href].
    + rewrite (final_flow_200 r H200). unfold success_value. rewrite Hj.
      cbn [finish fst snd truthy]. run. rewrite last_snoc. split; reflexivity.
    + rewrite (final_flow_refusal r Href).
      cbn [finish fst snd truthy]. run. rewrite last_snoc. split; reflexivity.
Qed.

Lemma X24_witness :
  fst (BusinessCentralClient.get_customers Examples.client 20
         (Examples.world_with [Answers Examples.ok_200])) = Ok (VList []) /\
  last (trace (snd (BusinessCentralClient.get_customers Examples.client 20
                      (Examples.world_with [Answers Examples.ok_200]))))
  = Some (EvLog ERROR CustomersFailed).
Proof.
  destruct (X24_get_customers_records Examples.client 20
              (Examples.world_with [Answers Examples.ok_200]) "tok" 3600000000
              Examples.ok_200 []) as (_ & _ & H).
  - cbn. lia.
  - repeat split; try reflexivity; discriminate.
  - reflexivity.
  - reflexivity.
  - cbn. lia.
  - cbn. lia.
  - apply H. left. split; reflexivity.
Defined.

(** ** Request executor: the budget used up *)

Section ServerErrorAttempt.
Import BusinessCentralClient.
Variable self : BusinessCentralClient.t.
Variables method url : string.
Variable params : option (list (string * val)).
Variable data : option val.


End ServerErrorAttempt.




(** ** Delivery operations against a server that answers *)





